(** * Análise administrativa automatizada: loader, metrics engine, exporters

    A shallow embedding of [code.py].  The pandas table is an ordered list of
    column labels together with an ordered list of rows; a row maps a label to
    the value it holds, and a label missing from a row is the null (NaN/NaT)
    cell.  Numbers are exact rationals.  Python exceptions are the [Raise]
    branch of [resultado]; code that prints, writes files or mutates the table
    it was handed runs in the state monad [M] over [Mundo]. *)

From Stdlib Require Import Ascii QArith.
From stdpp Require Import base option list strings gmap.

Local Open Scope Z_scope.
Local Open Scope stdpp_scope.

(* ================================================================== *)
(** ** Python strings *)

Module Str.

(** [str.lower] on the ASCII range; other bytes are left as they are.  None
    of the vocabulary tokens of the metrics engine holds a letter that a
    non-ASCII character lowers to. *)
Definition lower_ascii (c : ascii) : ascii :=
  let n := Ascii.N_of_ascii c in
  if ((65 <=? n) && (n <=? 90))%N then Ascii.ascii_of_N (n + 32) else c.

Fixpoint lower (s : string) : string :=
  match s with
  | EmptyString => EmptyString
  | String c r => String (lower_ascii c) (lower r)
  end.

(** [s.endswith(suf)] *)
Fixpoint endswith (s suf : string) : bool :=
  String.eqb s suf ||
  match s with
  | EmptyString => false
  | String _ r => endswith r suf
  end.

(** [s.startswith(pre)] *)
Definition startswith (s pre : string) : bool := String.prefix pre s.

(** [x in xs] for a list or an index of strings *)
Definition contem (x : string) (xs : list string) : bool :=
  existsb (String.eqb x) xs.

(** [os.path.join(a, b)] on POSIX paths *)
Definition path_join (a b : string) : string :=
  if startswith b "/" then b
  else if String.eqb a "" || endswith a "/" then a +:+ b
  else a +:+ "/" +:+ b.

End Str.

(* ================================================================== *)
(** ** Exceptions and results *)

Inductive excecao : Type :=
| FileNotFoundError (msg : string)
| ValueError (msg : string)
| KeyError (chave : string)
| IndexError
| TypeError
| Exception (msg : string).

Inductive resultado (A : Type) : Type :=
| Ok (a : A)
| Raise (e : excecao).
Arguments Ok {A} a.
Arguments Raise {A} e.

Definition bind_r {A B} (r : resultado A) (k : A -> resultado B) : resultado B :=
  match r with
  | Ok a => k a
  | Raise e => Raise e
  end.

#[global] Instance resultado_bind : MBind resultado :=
  fun A B k r => bind_r r k.
#[global] Instance resultado_ret : MRet resultado := fun A a => Ok a.

(** [str(e)] as the f-strings of the program print it.  A [KeyError] shows
    its key between quotes.  The text of a [TypeError] goes on with the
    operator and the types of the operands; only its head is kept here. *)
Definition mensagem (e : excecao) : string :=
  match e with
  | FileNotFoundError m | ValueError m | Exception m => m
  | KeyError k => "'" +:+ k +:+ "'"
  | IndexError => "index 0 is out of bounds for axis 0 with size 0"
  | TypeError => "unsupported operand type(s)"
  end.

(* ================================================================== *)
(** ** Numbers of the metrics mapping *)

(** A metric is a numpy scalar: a finite number, or what a division by zero
    leaves (numpy warns and goes on).  The statements below use the quotient
    by zero once, on a table of one row of numbers; where they promise that a
    mapping is returned they ask for nonzero denominators.  (The sum of a
    column without rows is a Python int, and Python raises
    [ZeroDivisionError] where numpy warns: with a zero denominator the
    quotient below stands for numpy scalars only.) *)
Inductive numero : Type :=
| Fin (q : Q)
| Inf (negativo : bool)
| NaN.

Definition n_sub (x y : numero) : numero :=
  match x, y with
  | NaN, _ | _, NaN => NaN
  | Fin a, Fin b => Fin (a - b)
  | Fin _, Inf s => Inf (negb s)
  | Inf s, Fin _ => Inf s
  | Inf s, Inf t => if Bool.eqb s t then NaN else Inf s
  end.

Definition q_neg (q : Q) : bool :=
  match Qcompare q 0 with Lt => true | _ => false end.

Definition n_div (x y : numero) : numero :=
  match x, y with
  | NaN, _ | _, NaN => NaN
  | Fin a, Fin b =>
      if Qeq_bool b 0 then
        match Qcompare a 0 with
        | Eq => NaN
        | Lt => Inf true
        | Gt => Inf false
        end
      else Fin (a / b)
  | Fin _, Inf _ => Fin 0
  | Inf s, Fin b => Inf (xorb s (q_neg b))
  | Inf _, Inf _ => NaN
  end.

Definition n_of_nat (n : nat) : numero := Fin (inject_Z (Z.of_nat n)).

(* ================================================================== *)
(** ** The table *)

Inductive valor : Type :=
| Num (q : Q)
| Texto (s : string)
| Instante (t : Z).

(** One row; a label the row does not hold is a null cell. *)
Abbreviation linha := (gmap string valor).

Record DataFrame : Type := mkDataFrame {
  columns : list string;
  linhas : list (gmap string valor)
}.

(** A column read out of the table, one cell per row. *)
Abbreviation serie := (list (option valor)).

Module Pandas.

(** [df[c]] and [df.loc[:, c]]: the column, or [KeyError]. *)
Definition getitem (df : DataFrame) (c : string) : resultado serie :=
  if Str.contem c (columns df)
  then Ok ((fun r : gmap string valor => r !! c) <$> linhas df)
  else Raise (KeyError c).

(** [df[c] = v] with a scalar [v]: every row gets [v]; a new label goes to
    the end of the index, an existing one keeps its place. *)
Definition setitem_escalar (df : DataFrame) (c : string) (v : valor) : DataFrame :=
  {| columns := if Str.contem c (columns df) then columns df else columns df ++ [c];
     linhas := (fun r : gmap string valor => <[c := v]> r) <$> linhas df |}.

(** [df[c] = s] with a column [s] that has one cell per row: row [i] takes
    cell [i], a null cell leaving the row without the label. *)
Fixpoint atribuir (c : string) (rs : list (gmap string valor)) (s : serie)
    : list (gmap string valor) :=
  match rs with
  | [] => []
  | r :: rs' =>
      match head s with
      | Some (Some v) => <[c := v]> r
      | _ => delete c r
      end :: atribuir c rs' (tail s)
  end.

Definition setitem (df : DataFrame) (c : string) (s : serie) : DataFrame :=
  {| columns := if Str.contem c (columns df) then columns df else columns df ++ [c];
     linhas := atribuir c (linhas df) s |}.

(** [df.columns[mask][0]] *)
Definition primeiro_rotulo (rotulos : list string) (mask : list bool) : resultado string :=
  match filter (fun p : string * bool => p.2 = true) (zip rotulos mask) with
  | p :: _ => Ok p.1
  | [] => Raise IndexError
  end.

Definition e_numero (c : option valor) : bool :=
  match c with
  | None | Some (Num _) => true
  | Some _ => false
  end.

(** the numbers of a column, nulls skipped *)
Definition numeros (s : serie) : list Q :=
  omap (fun c : option valor => match c with Some (Num q) => Some q | _ => None end) s.

(** the sum, left to right, over exact numbers: the rounding and the
    overflow of [float64] and of [int64] are left out *)
Definition total (qs : list Q) : Q := fold_left Qplus qs 0%Q.

(** [Series.sum()] with its default [skipna=True].  Adding text or a
    timestamp to a number is a [TypeError].  (A column that holds text only
    is concatenated by pandas into a text, which is no [numero]: the model
    ends such a column like the mixed one.) *)
Definition sum (s : serie) : resultado numero :=
  if forallb e_numero s then Ok (Fin (total (numeros s))) else Raise TypeError.

Definition valor_eqb (a b : valor) : bool :=
  match a, b with
  | Num p, Num q => Qeq_bool p q
  | Texto s, Texto t => String.eqb s t
  | Instante s, Instante t => Z.eqb s t
  | _, _ => false
  end.

(** the distinct values in order of first appearance *)
Fixpoint distintos (vs : list valor) (vistos : list valor) : list valor :=
  match vs with
  | [] => []
  | v :: r =>
      if existsb (valor_eqb v) vistos then distintos r vistos
      else v :: distintos r (v :: vistos)
  end.

(** [Series.nunique()]: nulls are not counted. *)
Definition nunique (s : serie) : nat :=
  length (distintos (omap id s) []).

(** [pd.concat(dfs, ignore_index=True)]: labels in order of first
    appearance, rows one table after the other.  [ValueError] on no table. *)
Definition uniao_rotulos (a b : list string) : list string :=
  a ++ filter (fun c => Str.contem c a = false) b.

Definition concat (dfs : list DataFrame) : resultado DataFrame :=
  match dfs with
  | [] => Raise (ValueError "No objects to concatenate")
  | _ =>
      Ok {| columns := fold_left (fun acc d => uniao_rotulos acc (columns d)) dfs [];
            linhas := fold_left (fun acc d => acc ++ linhas d) dfs [] |}
  end.

(** [df.dropna(subset=[c])]: a new table without the rows null at [c]. *)
Definition dropna (df : DataFrame) (c : string) : DataFrame :=
  {| columns := columns df;
     linhas := filter (fun r : gmap string valor => is_Some (r !! c)) (linhas df) |}.

End Pandas.

(* ================================================================== *)
(** ** The metrics mapping: a Python dict, kept in insertion order *)

Module Dict.

Fixpoint set (k : string) (v : numero) (d : list (string * numero)) : list (string * numero) :=
  match d with
  | [] => [(k, v)]
  | (k', v') :: r =>
      if String.eqb k k' then (k, v) :: r else (k', v') :: set k v r
  end.

Fixpoint get (k : string) (d : list (string * numero)) : option numero :=
  match d with
  | [] => None
  | (k', v') :: r => if String.eqb k k' then Some v' else get k r
  end.

(** [d[k]] *)
Definition getitem (d : list (string * numero)) (k : string) : resultado numero :=
  match get k d with
  | Some v => Ok v
  | None => Raise (KeyError k)
  end.

Definition keys (d : list (string * numero)) : list string := d.*1.

End Dict.

(* ================================================================== *)
(** ** [calcular_metricas] *)

(** [df.columns.str.lower()] *)
Definition colunas_lower (df : DataFrame) : list string :=
  Str.lower <$> columns df.

(** [df.loc[:, df.columns[colunas == tok][0]].sum()] *)
Definition soma_coluna_ci (df : DataFrame) (tok : string) : resultado numero :=
  rotulo ← Pandas.primeiro_rotulo (columns df)
              ((fun c => String.eqb c tok) <$> colunas_lower df);
  s ← Pandas.getitem df rotulo;
  Pandas.sum s.

(** [df[c].sum()] *)
Definition soma_coluna (df : DataFrame) (c : string) : resultado numero :=
  s ← Pandas.getitem df c;
  Pandas.sum s.

(** The five [if] statements, each taking the mapping built so far. *)
Definition regra_receita (df : DataFrame) (colunas : list string)
    (metricas : list (string * numero)) : resultado (list (string * numero)) :=
  if Str.contem "receita" colunas then
    v ← soma_coluna_ci df "receita";
    Ok (Dict.set "Receita Total" v metricas)
  else Ok metricas.

Definition regra_despesa (df : DataFrame) (colunas : list string)
    (metricas : list (string * numero)) : resultado (list (string * numero)) :=
  if Str.contem "despesa" colunas then
    v ← soma_coluna_ci df "despesa";
    Ok (Dict.set "Custo Operacional Total" v metricas)
  else Ok metricas.

Definition regra_produtividade (df : DataFrame) (colunas : list string)
    (metricas : list (string * numero)) : resultado (list (string * numero)) :=
  if Str.contem "funcionario" colunas && Str.contem "producao" colunas then
    p ← soma_coluna df "producao";
    f ← Pandas.getitem df "funcionario";
    Ok (Dict.set "Produtividade Média" (n_div p (n_of_nat (Pandas.nunique f))) metricas)
  else Ok metricas.

Definition regra_lucro (colunas : list string)
    (metricas : list (string * numero)) : resultado (list (string * numero)) :=
  if Str.contem "receita" colunas && Str.contem "despesa" colunas then
    r ← Dict.getitem metricas "Receita Total";
    c ← Dict.getitem metricas "Custo Operacional Total";
    Ok (Dict.set "Lucro Líquido" (n_sub r c) metricas)
  else Ok metricas.

Definition regra_ticket (df : DataFrame) (colunas : list string)
    (metricas : list (string * numero)) : resultado (list (string * numero)) :=
  if Str.contem "vendas" colunas && Str.contem "quantidade" colunas then
    v ← soma_coluna df "vendas";
    q ← soma_coluna df "quantidade";
    Ok (Dict.set "Ticket Médio" (n_div v q) metricas)
  else Ok metricas.

Definition calcular_metricas (df : DataFrame) : resultado (list (string * numero)) :=
  let metricas : list (string * numero) := [] in
  let colunas := colunas_lower df in
  metricas ← regra_receita df colunas metricas;
  metricas ← regra_despesa df colunas metricas;
  metricas ← regra_produtividade df colunas metricas;
  metricas ← regra_lucro colunas metricas;
  metricas ← regra_ticket df colunas metricas;
  Ok metricas.

(* ================================================================== *)
(** ** Effects: standard output, the objects shared by reference, the disk *)

Inductive desenho : Type :=
| DrawString (x y : Z) (texto : string)
| DrawMetrica (x y : Z) (nome : string) (v : numero).

Inductive artefato : Type :=
| GraficoLinha (dados : DataFrame) (x y titulo : string)
| GraficoBarra (dados : DataFrame) (x y titulo : string)
| Planilha (dados_consolidados : DataFrame) (indicadores : list (string * numero))
| Pdf (titulo : string) (desenhos : list desenho).

Record Mundo : Type := mkMundo {
  stdout : list string;
  objetos : gmap nat DataFrame;
  pastas : gset string;
  disco : gmap string artefato
}.

Definition M (A : Type) : Type := Mundo -> resultado A * Mundo.

Module Efeito.

Definition ret {A} (a : A) : M A := fun w => (Ok a, w).

Definition bind {A B} (m : M A) (k : A -> M B) : M B :=
  fun w => match m w with
           | (Ok a, w') => k a w'
           | (Raise e, w') => (Raise e, w')
           end.

Definition raise {A} (e : excecao) : M A := fun w => (Raise e, w).

Definition lift {A} (r : resultado A) : M A := fun w => (r, w).

(** [try: m except Exception as e: h e] *)
Definition tenta {A} (m : M A) (h : excecao -> M A) : M A :=
  fun w => match m w with
           | (Ok a, w') => (Ok a, w')
           | (Raise e, w') => h e w'
           end.

Definition print (s : string) : M unit :=
  fun w => (Ok tt, {| stdout := stdout w ++ [s]; objetos := objetos w;
                      pastas := pastas w; disco := disco w |}).

(** a new object, and the reference to it *)
Definition aloca (df : DataFrame) : M nat :=
  fun w => let r := fresh (dom (objetos w)) in
           (Ok r, {| stdout := stdout w; objetos := <[r := df]> (objetos w);
                     pastas := pastas w; disco := disco w |}).

Definition le (r : nat) : M DataFrame :=
  fun w => match objetos w !! r with
           | Some df => (Ok df, w)
           | None => (Raise (Exception "dangling reference"), w)
           end.

(** in-place update of the object behind [r] *)
Definition escreve (r : nat) (df : DataFrame) : M unit :=
  fun w => (Ok tt, {| stdout := stdout w; objetos := <[r := df]> (objetos w);
                      pastas := pastas w; disco := disco w |}).

(** [os.makedirs(p, exist_ok=True)] *)
Definition makedirs (p : string) : M unit :=
  fun w => (Ok tt, {| stdout := stdout w; objetos := objetos w;
                      pastas := {[p]} ∪ pastas w; disco := disco w |}).

Definition grava (caminho : string) (a : artefato) : M unit :=
  fun w => (Ok tt, {| stdout := stdout w; objetos := objetos w;
                      pastas := pastas w; disco := <[caminho := a]> (disco w) |}).

End Efeito.

Declare Scope efeito_scope.
Delimit Scope efeito_scope with efeito.
Notation "'seja' x '<==' m 'em' k" := (Efeito.bind m (fun x => k))
  (at level 10, x name, m at level 100, k at level 200, only parsing) : efeito_scope.
Notation "m '>>>' k" := (Efeito.bind m (fun _ => k))
  (at level 90, right associativity, only parsing) : efeito_scope.

(* ================================================================== *)
(** ** [carregar_dados] *)

Definition NoInputFiles : excecao :=
  FileNotFoundError "Nenhum arquivo CSV ou Excel encontrado no diretório informado.".

Definition NoLoadableData : excecao :=
  ValueError "Nenhum dado pôde ser carregado.".

Definition extensao_reconhecida (f : string) : bool :=
  Str.endswith f ".csv" || Str.endswith f ".xlsx".

(** [[f for f in nomes if f.endswith(('.csv', '.xlsx'))]] *)
Definition elegiveis (nomes : list string) : list string :=
  filter (fun f => extensao_reconhecida f = true) nomes.

Definition aviso (arquivo : string) (e : excecao) : string :=
  "[AVISO] Erro ao carregar " +:+ arquivo +:+ ": " +:+ mensagem e.

(** What the program takes from outside: the input side of the file system
    ([os.listdir], [pd.read_csv], [pd.read_excel], each either an answer or
    the exception it raises) and the date functions of pandas
    ([pd.to_datetime(s, errors='coerce')] on a column, giving one cell per
    cell of [s], [None] being NaT, and the text of [Timestamp.to_period('M')]). *)
Record Ambiente : Type := mkAmbiente {
  listdir : string -> resultado (list string);
  read_csv : string -> resultado DataFrame;
  read_excel : string -> resultado DataFrame;
  to_datetime : serie -> list (option Z);
  to_period_M : Z -> string
}.

Section Carregar.
Local Open Scope efeito_scope.

Variable amb : Ambiente.

(** the parser the extension asks for, on the path of the file *)
Definition leitura (diretorio arquivo : string) : resultado DataFrame :=
  let caminho := Str.path_join diretorio arquivo in
  if Str.endswith arquivo ".csv" then read_csv amb caminho else read_excel amb caminho.

(** the body of the [try] of the loop: parse, then tag every row with the
    file name *)
Definition ler_arquivo (diretorio arquivo : string) : resultado DataFrame :=
  df ← leitura diretorio arquivo;
  Ok (Pandas.setitem_escalar df "Origem_Arquivo" (Texto arquivo)).

(** the [for] loop, [dfs] being the list built so far *)
Fixpoint carregar_arquivos (diretorio : string) (arquivos : list string)
    (dfs : list DataFrame) : M (list DataFrame) :=
  match arquivos with
  | [] => Efeito.ret dfs
  | arquivo :: resto =>
      seja dfs' <==
        Efeito.tenta
          (seja df <== Efeito.lift (ler_arquivo diretorio arquivo) em
           Efeito.ret (dfs ++ [df]))
          (fun e => Efeito.print (aviso arquivo e) >>> Efeito.ret dfs)
      em carregar_arquivos diretorio resto dfs'
  end.

Definition carregar_dados (diretorio : string) : M DataFrame :=
  seja nomes <== Efeito.lift (listdir amb diretorio) em
  let arquivos := elegiveis nomes in
  match arquivos with
  | [] => Efeito.raise NoInputFiles
  | _ =>
      seja dfs <== carregar_arquivos diretorio arquivos [] em
      match dfs with
      | [] => Efeito.raise NoLoadableData
      | _ =>
          seja df_final <== Efeito.lift (Pandas.concat dfs) em
          Efeito.ret df_final
      end
  end.

(** *** What a directory listing contributes, file by file *)

(** the tables of the files that parse, in listing order *)
Definition carregados (diretorio : string) (arquivos : list string) : list DataFrame :=
  arquivos ≫= (fun a => match ler_arquivo diretorio a with
                        | Ok t => [t]
                        | Raise _ => []
                        end).

(** the warnings of the files that do not *)
Definition avisos (diretorio : string) (arquivos : list string) : list string :=
  arquivos ≫= (fun a => match ler_arquivo diretorio a with
                        | Ok _ => []
                        | Raise e => [aviso a e]
                        end).

(** the rows one file brings: its own rows, in its own order, each tagged
    with the file name; none when the file does not parse *)
Definition bloco (diretorio arquivo : string) : list (gmap string valor) :=
  match leitura diretorio arquivo with
  | Ok t => (fun r : gmap string valor => <["Origem_Arquivo" := Texto arquivo]> r) <$> linhas t
  | Raise _ => []
  end.

End Carregar.

(** the world after printing the lines [ls] *)
Definition anota (w : Mundo) (ls : list string) : Mundo :=
  {| stdout := stdout w ++ ls; objetos := objetos w;
     pastas := pastas w; disco := disco w |}.

(* ================================================================== *)
(** ** [gerar_graficos], [exportar_excel], [exportar_pdf], [main] *)

Section Relatorios.
Local Open Scope efeito_scope.

Variable amb : Ambiente.

(** [pd.to_datetime(s, errors='coerce')] as a column of the table *)
Definition coagir (s : serie) : serie :=
  (fun c : option Z => Instante <$> c) <$> to_datetime amb s.

(** one cell of [s.dt.to_period('M').astype(str)] *)
Definition mes_da_celula (c : option valor) : option valor :=
  match c with
  | Some (Instante t) => Some (Texto (to_period_M amb t))
  | _ => None
  end.

(** [df] is the reference the caller passed.  Line 90 writes through it;
    line 91 binds the local name to a new object, which line 92 and the
    charts use. *)
Definition gerar_graficos (df : nat) (pasta_saida : string) : M unit :=
  seja t <== Efeito.le df em
  if Str.contem "data" (columns t) then
    seja s <== Efeito.lift (Pandas.getitem t "data") em
    Efeito.escreve df (Pandas.setitem t "data" (coagir s)) >>>
    seja t <== Efeito.le df em
    seja df <== Efeito.aloca (Pandas.dropna t "data") em
    seja t <== Efeito.le df em
    seja s <== Efeito.lift (Pandas.getitem t "data") em
    Efeito.escreve df (Pandas.setitem t "mês" (mes_da_celula <$> s)) >>>
    seja t <== Efeito.le df em
    (if Str.contem "receita" (columns t) then
       Efeito.grava (Str.path_join pasta_saida "grafico_receita.html")
         (GraficoLinha t "mês" "receita" "Evolução da Receita Mensal")
     else Efeito.ret tt) >>>
    (if Str.contem "despesa" (columns t) then
       Efeito.grava (Str.path_join pasta_saida "grafico_despesa.html")
         (GraficoBarra t "mês" "despesa" "Custos Operacionais por Mês")
     else Efeito.ret tt) >>>
    Efeito.print "[INFO] Gráficos interativos gerados com sucesso."
  else Efeito.ret tt.

Definition exportar_excel (metricas : list (string * numero)) (df : nat)
    (pasta_saida : string) : M unit :=
  let caminho_excel := Str.path_join pasta_saida "relatorio_administrativo.xlsx" in
  seja t <== Efeito.le df em
  Efeito.grava caminho_excel (Planilha t metricas) >>>
  Efeito.print ("[INFO] Relatório Excel salvo em: " +:+ caminho_excel).

(** the lines of the page, [y] going down by 20 from 760 *)
Fixpoint linhas_pdf (metricas : list (string * numero)) (y : Z) : list desenho :=
  match metricas with
  | [] => []
  | (k, v) :: r => DrawMetrica 100 y k v :: linhas_pdf r (y - 20)
  end.

(** the page for a mapping of numbers, which the format [{v:,.2f}] of the
    metric lines takes without exception *)
Definition exportar_pdf (metricas : list (string * numero)) (pasta_saida : string) : M unit :=
  let caminho_pdf := Str.path_join pasta_saida "relatorio_administrativo.pdf" in
  Efeito.grava caminho_pdf
    (Pdf "Relatório Administrativo"
       (DrawString 200 800 "Relatório Administrativo" :: linhas_pdf metricas 760)) >>>
  Efeito.print ("[INFO] Relatório PDF salvo em: " +:+ caminho_pdf).

(** The [try] body of [main]; [df] is one object, handed by reference to
    the chart exporter and then to the spreadsheet exporter. *)
Definition fluxo (input output : string) : M unit :=
  Efeito.print "[INFO] Carregando dados..." >>>
  seja tabela <== carregar_dados amb input em
  seja df <== Efeito.aloca tabela em
  Efeito.print "[INFO] Calculando métricas..." >>>
  seja t <== Efeito.le df em
  seja metricas <== Efeito.lift (calcular_metricas t) em
  Efeito.print "[INFO] Gerando gráficos..." >>>
  gerar_graficos df output >>>
  Efeito.print "[INFO] Exportando relatórios..." >>>
  exportar_excel metricas df output >>>
  exportar_pdf metricas output >>>
  Efeito.print "[SUCESSO] Processo concluído!".

(** [main], returning the exit status of the process *)
Definition main (input output : string) : M Z :=
  Efeito.makedirs output >>>
  Efeito.tenta
    (fluxo input output >>> Efeito.ret 0)
    (fun e => Efeito.print ("[ERRO] " +:+ mensagem e) >>> Efeito.ret 1).

End Relatorios.

(* ================================================================== *)
(** ** Vocabulary of the statements *)

(** [tok in df.columns.str.lower()] *)
Definition tem (tok : string) (df : DataFrame) : bool :=
  Str.contem tok (colunas_lower df).

(** the first label, in index order, that lowers to [tok] *)
Definition rotulo_ci (df : DataFrame) (tok : string) : option string :=
  List.find (fun c => String.eqb (Str.lower c) tok) (columns df).

(** the cells of column [c], row by row *)
Definition valores (df : DataFrame) (c : string) : serie :=
  (fun r : gmap string valor => r !! c) <$> linhas df.

Definition coluna_numerica (df : DataFrame) (c : string) : bool :=
  forallb Pandas.e_numero (valores df c).

(** the sum of the numbers of column [c], a null cell adding nothing *)
Definition soma_de (df : DataFrame) (c : string) : numero :=
  Fin (Pandas.total (Pandas.numeros (valores df c))).

Definition soma_ci (df : DataFrame) (tok : string) : numero :=
  match rotulo_ci df tok with
  | Some c => soma_de df c
  | None => Fin 0
  end.

(** the same sum, written with nulls replaced by 0 *)
Definition nulo_como_zero (c : option valor) : Q :=
  match c with
  | Some (Num q) => q
  | _ => 0%Q
  end.

(** The column matched for [tok] holds numbers or nulls only. *)
Definition clausula_ci (df : DataFrame) (tok : string) : bool :=
  match rotulo_ci df tok with Some c => coluna_numerica df c | None => true end.

(** When rule 3 fires, [producao] and [funcionario] are labels of the table
    as they stand, in lower case, and [producao] holds numbers or nulls only. *)
Definition clausula_produtividade (df : DataFrame) : bool :=
  if tem "funcionario" df && tem "producao" df then
    Str.contem "producao" (columns df) && coluna_numerica df "producao"
    && Str.contem "funcionario" (columns df)
  else true.

(** The same for rule 5 with [vendas] and [quantidade], both summed. *)
Definition clausula_ticket (df : DataFrame) : bool :=
  if tem "vendas" df && tem "quantidade" df then
    Str.contem "vendas" (columns df) && coluna_numerica df "vendas"
    && Str.contem "quantidade" (columns df) && coluna_numerica df "quantidade"
  else true.

(** The tables on which [calcular_metricas] meets no exception. *)
Definition sem_excecao (df : DataFrame) : bool :=
  clausula_ci df "receita" && clausula_ci df "despesa"
  && clausula_produtividade df && clausula_ticket df.

(** The divisions that take place have a nonzero denominator. *)
Definition denominadores_nao_nulos (df : DataFrame) : bool :=
  (if tem "funcionario" df && tem "producao" df then
     negb (Nat.eqb (Pandas.nunique (valores df "funcionario")) 0)
   else true)
  && (if tem "vendas" df && tem "quantidade" df then
        negb (Qeq_bool (Pandas.total (Pandas.numeros (valores df "quantidade"))) 0)
      else true).

(** The well-formed input of the metrics engine: summed columns of numbers
    and nulls, the columns of rules 3 and 5 under their lower-case labels,
    no division by zero. *)
Definition regular (df : DataFrame) : bool :=
  sem_excecao df && denominadores_nao_nulos df.

(** The five indicators in evaluation order, each with the vocabulary tokens
    its rule asks for (section 4.2 of the specification). *)
Definition requisitos : list (string * list string) :=
  [ ("Receita Total", ["receita"]);
    ("Custo Operacional Total", ["despesa"]);
    ("Produtividade Média", ["funcionario"; "producao"]);
    ("Lucro Líquido", ["receita"; "despesa"]);
    ("Ticket Médio", ["vendas"; "quantidade"]) ].

Definition indicadores : list string := requisitos.*1.

(** the column names the rules look for *)
Definition vocabulario : list string :=
  ["receita"; "despesa"; "funcionario"; "producao"; "vendas"; "quantidade"].

Definition precondicao (df : DataFrame) (toks : list string) : bool :=
  forallb (fun tok => tem tok df) toks.

(** the indicators whose column preconditions are met, in evaluation order *)
Definition indicadores_devidos (df : DataFrame) : list string :=
  (List.filter (fun p : string * list string => precondicao df p.2) requisitos).*1.

(** the value each rule stores *)
Definition valor_da_regra (df : DataFrame) (k : string) : numero :=
  if String.eqb k "Receita Total" then soma_ci df "receita"
  else if String.eqb k "Custo Operacional Total" then soma_ci df "despesa"
  else if String.eqb k "Produtividade Média" then
    n_div (soma_de df "producao") (n_of_nat (Pandas.nunique (valores df "funcionario")))
  else if String.eqb k "Lucro Líquido" then
    n_sub (soma_ci df "receita") (soma_ci df "despesa")
  else n_div (soma_de df "vendas") (soma_de df "quantidade").

(** the mapping [calcular_metricas] returns when it raises nothing *)
Definition resumo (df : DataFrame) : list (string * numero) :=
  (fun k => (k, valor_da_regra df k)) <$> indicadores_devidos df.

(** [df.rename(columns={velho: novo})] *)
Definition renomear (velho novo : string) (df : DataFrame) : DataFrame :=
  {| columns := (fun c => if String.eqb c velho then novo else c) <$> columns df;
     linhas := (fun r : gmap string valor =>
                  match r !! velho with
                  | Some v => <[novo := v]> (delete velho r)
                  | None => r
                  end) <$> linhas df |}.

(** the caller's table after line 90 of [gerar_graficos] *)
Definition tabela_coagida (amb : Ambiente) (t : DataFrame) : DataFrame :=
  Pandas.setitem t "data" (coagir amb (valores t "data")).

(** the table the charts are drawn from: the copy [dropna] makes, with the
    month column *)
Definition copia_dos_graficos (amb : Ambiente) (t : DataFrame) : DataFrame :=
  Pandas.setitem (Pandas.dropna (tabela_coagida amb t) "data") "mês"
    (mes_da_celula amb <$> valores (Pandas.dropna (tabela_coagida amb t) "data") "data").

(** a row written as the list of its non-null cells *)
Definition linha_de (celulas : list (string * valor)) : gmap string valor :=
  list_to_map celulas.

(** the environment with the listing of every directory replaced by [nomes] *)
Definition com_listagem (amb : Ambiente) (nomes : list string) : Ambiente :=
  {| listdir := fun _ => Ok nomes;
     read_csv := read_csv amb; read_excel := read_excel amb;
     to_datetime := to_datetime amb; to_period_M := to_period_M amb |}.

(** the report files of [main] *)
Definition caminho_excel (saida : string) : string :=
  Str.path_join saida "relatorio_administrativo.xlsx".

Definition caminho_pdf (saida : string) : string :=
  Str.path_join saida "relatorio_administrativo.pdf".

Definition pagina_pdf (metricas : list (string * numero)) : artefato :=
  Pdf "Relatório Administrativo"
    (DrawString 200 800 "Relatório Administrativo" :: linhas_pdf metricas 760).

(** the table the spreadsheet gets: the caller's table as the chart exporter
    left it *)
Definition tabela_exportada (amb : Ambiente) (t : DataFrame) : DataFrame :=
  if Str.contem "data" (columns t) then tabela_coagida amb t else t.

(** the chart files [gerar_graficos] writes for the table [t] *)
Definition graficos_de (amb : Ambiente) (saida : string) (t : DataFrame)
    (d : gmap string artefato) : gmap string artefato :=
  let copia := copia_dos_graficos amb t in
  let d1 := if Str.contem "receita" (columns copia)
            then <[Str.path_join saida "grafico_receita.html" :=
                     GraficoLinha copia "mês" "receita" "Evolução da Receita Mensal"]> d
            else d in
  if Str.contem "despesa" (columns copia)
  then <[Str.path_join saida "grafico_despesa.html" :=
           GraficoBarra copia "mês" "despesa" "Custos Operacionais por Mês"]> d1
  else d1.

(* ================================================================== *)
(** ** Concrete tables and directories *)

Module Exemplos.

Definition mundo0 : Mundo :=
  {| stdout := []; objetos := ∅; pastas := ∅; disco := ∅ |}.

(** capitalised labels, as a spreadsheet header often has them *)
Definition tabela_maiusculas : DataFrame :=
  {| columns := ["Funcionario"; "Producao"];
     linhas := [ linha_de [("Funcionario", Num 1); ("Producao", Num 10)] ] |}.

Definition tabela_minusculas : DataFrame :=
  renomear "Producao" "producao" (renomear "Funcionario" "funcionario" tabela_maiusculas).

Definition tabela_financeira : DataFrame :=
  {| columns := ["Receita"; "DESPESA"; "setor"];
     linhas := [ linha_de [("Receita", Num 100); ("DESPESA", Num 40); ("setor", Texto "a")];
                 linha_de [("Receita", Num 200); ("setor", Texto "b")] ] |}.

Definition tabela_so_receita : DataFrame :=
  {| columns := ["receita"];
     linhas := [ linha_de [("receita", Num 7)] ] |}.

Definition tabela_produtividade : DataFrame :=
  {| columns := ["funcionario"; "producao"];
     linhas := [ linha_de [("funcionario", Num 1); ("producao", Num 10)];
                 linha_de [("funcionario", Num 1); ("producao", Num 20)];
                 linha_de [("funcionario", Num 2); ("producao", Num 30)] ] |}.

Definition tabela_vendas : DataFrame :=
  {| columns := ["vendas"; "quantidade"];
     linhas := [ linha_de [("vendas", Num 90); ("quantidade", Num 2)];
                 linha_de [("vendas", Num 30); ("quantidade", Num 1)] ] |}.

Definition tabela_vendas_zero : DataFrame :=
  {| columns := ["vendas"; "quantidade"];
     linhas := [ linha_de [("vendas", Num 5); ("quantidade", Num 0)] ] |}.

(** no recognized column at all *)
Definition tabela_sem_vocabulario : DataFrame :=
  {| columns := ["cliente"; "Origem_Arquivo"];
     linhas := [ linha_de [("cliente", Texto "Ana"); ("Origem_Arquivo", Texto "c.csv")] ] |}.

(** a [receita] column that took a number from one file and a text from
    another *)
Definition tabela_mista : DataFrame :=
  {| columns := ["receita"; "Origem_Arquivo"];
     linhas := [ linha_de [("receita", Num 100); ("Origem_Arquivo", Texto "a.csv")];
                 linha_de [("receita", Texto "abc"); ("Origem_Arquivo", Texto "b.csv")] ] |}.

(** a despesa column whose last cell is null *)
Definition tabela_despesa_nula : DataFrame :=
  {| columns := ["despesa"];
     linhas := [ linha_de [("despesa", Num 40)]; linha_de [("despesa", Num 60)]; linha_de [] ] |}.

(** the two files of the scenario of section 8 *)
Definition a_csv : DataFrame :=
  {| columns := ["receita"; "despesa"];
     linhas := [ linha_de [("receita", Num 100); ("despesa", Num 40)];
                 linha_de [("receita", Num 200); ("despesa", Num 60)] ] |}.

Definition b_csv : DataFrame :=
  {| columns := ["receita"];
     linhas := [ linha_de [("receita", Num 50)] ] |}.

(** a table with a date column: one date, one unreadable text, one null *)
Definition tabela_datas : DataFrame :=
  {| columns := ["data"; "receita"];
     linhas := [ linha_de [("data", Texto "2024-01-15"); ("receita", Num 10)];
                 linha_de [("data", Texto "ontem"); ("receita", Num 20)];
                 linha_de [("receita", Num 30)] ] |}.

Definition listar (d : string) : resultado (list string) :=
  if String.eqb d "relatorios" then Ok ["a.csv"; "b.csv"]
  else if String.eqb d "misto" then Ok ["a.csv"; "quebrado.xlsx"; "leiame.txt"; "b.csv"]
  else if String.eqb d "vazio" then Ok ["leiame.txt"]
  else if String.eqb d "quebrados" then Ok ["quebrado.xlsx"; "leiame.txt"]
  else if String.eqb d "datas" then Ok ["d.csv"]
  else Raise (FileNotFoundError "[Errno 2] No such file or directory").

Definition ler_csv (caminho : string) : resultado DataFrame :=
  if String.eqb caminho "relatorios/a.csv" || String.eqb caminho "misto/a.csv" then Ok a_csv
  else if String.eqb caminho "relatorios/b.csv" || String.eqb caminho "misto/b.csv" then Ok b_csv
  else if String.eqb caminho "datas/d.csv" then Ok tabela_datas
  else Raise (FileNotFoundError "[Errno 2] No such file or directory").

Definition ler_excel (caminho : string) : resultado DataFrame :=
  Raise (Exception "File is not a zip file").

Definition para_data_celula (c : option valor) : option Z :=
  v ← c;
  match v with
  | Texto s => if String.eqb s "2024-01-15" then Some 1705276800 else None
  | Instante t => Some t
  | Num _ => None
  end.

Definition para_periodo (t : Z) : string :=
  if Z.eqb t 1705276800 then "2024-01" else "1970-01".

Definition ambiente : Ambiente :=
  {| listdir := listar; read_csv := ler_csv; read_excel := ler_excel;
     to_datetime := fmap para_data_celula; to_period_M := para_periodo |}.

End Exemplos.

(* ================================================================== *)
(** ** More tables and a second directory tree *)

Module Casos.

(** a receita column next to capitalised vendas and quantidade *)
Definition tabela_vendas_maiusculas : DataFrame :=
  {| columns := ["receita"; "Vendas"; "Quantidade"];
     linhas := [ linha_de [("receita", Num 10); ("Vendas", Num 90); ("Quantidade", Num 3)] ] |}.

(** the team of section 8 under a capitalised header: two employees, three
    rows *)
Definition tabela_equipe_maiusculas : DataFrame :=
  {| columns := ["Funcionario"; "Producao"];
     linhas := [ linha_de [("Funcionario", Num 1); ("Producao", Num 10)];
                 linha_de [("Funcionario", Num 1); ("Producao", Num 20)];
                 linha_de [("Funcionario", Num 2); ("Producao", Num 30)] ] |}.

(** a team with its sales, the quantity column under a capitalised label *)
Definition tabela_equipe_vendas : DataFrame :=
  {| columns := ["funcionario"; "producao"; "vendas"; "Quantidade"];
     linhas := [ linha_de [("funcionario", Num 1); ("producao", Num 10);
                           ("vendas", Num 90); ("Quantidade", Num 3)] ] |}.

(** a despesa column that took a text in one row and a number in another *)
Definition tabela_receita_mista_despesa : DataFrame :=
  {| columns := ["receita"; "Despesa"];
     linhas := [ linha_de [("receita", Num 10); ("Despesa", Texto "n/d")];
                 linha_de [("receita", Num 20); ("Despesa", Num 5)] ] |}.

(** a world holding the table [t] as its only object, under reference 0 *)
Definition mundo_com (t : DataFrame) : Mundo :=
  {| stdout := []; objetos := {[ 0%nat := t ]}; pastas := ∅; disco := ∅ |}.

Definition listar (d : string) : resultado (list string) :=
  if String.eqb d "planilhas" then Ok ["equipe.csv"; "LEIAME.CSV"]
  else Raise (FileNotFoundError "[Errno 2] No such file or directory").

Definition ler_csv (caminho : string) : resultado DataFrame :=
  if String.eqb caminho "planilhas/equipe.csv" then Ok Exemplos.tabela_maiusculas
  else Raise (FileNotFoundError "[Errno 2] No such file or directory").

Definition ambiente : Ambiente :=
  {| listdir := listar; read_csv := ler_csv; read_excel := Exemplos.ler_excel;
     to_datetime := fmap Exemplos.para_data_celula;
     to_period_M := Exemplos.para_periodo |}.

End Casos.

(* ================================================================== *)
(** ** Strings and labels *)

Lemma contem_elem_of x xs : Str.contem x xs = true <-> x ∈ xs.
Proof.
  unfold Str.contem. rewrite existsb_exists. split.
  - intros (y & Hy & Heq). apply String.eqb_eq in Heq. subst. by apply list_elem_of_In.
  - intros H. exists x. split; [by apply list_elem_of_In | apply String.eqb_refl].
Qed.

Lemma contem_app x xs ys : Str.contem x (xs ++ ys) = Str.contem x xs || Str.contem x ys.
Proof. unfold Str.contem. apply existsb_app. Qed.

Lemma tem_rotulo_ci df tok :
  tem tok df = true <-> exists c, rotulo_ci df tok = Some c.
Proof.
  unfold tem, rotulo_ci, colunas_lower, Str.contem.
  induction (columns df) as [|c cs IH]; simpl.
  - split; [done | by intros [? ?]].
  - rewrite (String.eqb_sym tok). destruct (String.eqb (Str.lower c) tok); simpl.
    + split; eauto.
    + exact IH.
Qed.

Lemma rotulo_ci_Some df tok c :
  rotulo_ci df tok = Some c -> c ∈ columns df /\ Str.lower c = tok.
Proof.
  unfold rotulo_ci. intros H. apply find_some in H as [Hin Heq].
  split; [by apply list_elem_of_In | by apply String.eqb_eq].
Qed.

Lemma primeiro_rotulo_find (cs : list string) tok :
  Pandas.primeiro_rotulo cs ((fun c => String.eqb c tok) <$> (Str.lower <$> cs)) =
  match List.find (fun c => String.eqb (Str.lower c) tok) cs with
  | Some c => Ok c
  | None => Raise IndexError
  end.
Proof.
  unfold Pandas.primeiro_rotulo.
  induction cs as [|c cs IH]; [done|].
  cbn [fmap list_fmap zip zip_with List.find].
  rewrite filter_cons. cbn [snd fst].
  destruct (String.eqb (Str.lower c) tok) eqn:E.
  - rewrite decide_True by done. done.
  - rewrite decide_False by done. exact IH.
Qed.

Lemma getitem_valores df c :
  Str.contem c (columns df) = true -> Pandas.getitem df c = Ok (valores df c).
Proof. intros H. unfold Pandas.getitem. by rewrite H. Qed.

Lemma getitem_KeyError df c :
  Str.contem c (columns df) = false -> Pandas.getitem df c = Raise (KeyError c).
Proof. intros H. unfold Pandas.getitem. by rewrite H. Qed.

Lemma sum_numerica df c :
  coluna_numerica df c = true -> Pandas.sum (valores df c) = Ok (soma_de df c).
Proof. unfold coluna_numerica, Pandas.sum. by intros ->. Qed.

Lemma sum_TypeError df c :
  coluna_numerica df c = false -> Pandas.sum (valores df c) = Raise TypeError.
Proof. unfold coluna_numerica, Pandas.sum. by intros ->. Qed.

(** The first two rules go through the lowered index to the label as the
    table spells it, and sum that column. *)
Lemma soma_coluna_ci_rotulo df tok c :
  rotulo_ci df tok = Some c ->
  soma_coluna_ci df tok = Pandas.sum (valores df c).
Proof.
  intros H. unfold soma_coluna_ci, colunas_lower.
  rewrite primeiro_rotulo_find. fold (rotulo_ci df tok). rewrite H.
  cbn [mbind resultado_bind bind_r].
  apply rotulo_ci_Some in H as [Hin _].
  rewrite getitem_valores by by apply contem_elem_of.
  done.
Qed.

Lemma soma_coluna_literal df c :
  soma_coluna df c =
  if Str.contem c (columns df) then Pandas.sum (valores df c) else Raise (KeyError c).
Proof.
  unfold soma_coluna, Pandas.getitem.
  by destruct (Str.contem c (columns df)).
Qed.

(* ================================================================== *)
(** ** The metrics engine, rule by rule *)

Lemma tem_rotulo_ci_bool df tok :
  tem tok df = match rotulo_ci df tok with Some _ => true | None => false end.
Proof.
  destruct (rotulo_ci df tok) as [c|] eqn:E.
  - apply tem_rotulo_ci. eauto.
  - destruct (tem tok df) eqn:T; [|done].
    apply tem_rotulo_ci in T as [c Hc]. congruence.
Qed.

Lemma soma_coluna_ci_ok df tok :
  tem tok df = true -> clausula_ci df tok = true ->
  soma_coluna_ci df tok = Ok (soma_ci df tok).
Proof.
  unfold clausula_ci, soma_ci. rewrite tem_rotulo_ci_bool.
  destruct (rotulo_ci df tok) as [c|] eqn:E; [|done].
  intros _ Hn. rewrite (soma_coluna_ci_rotulo _ _ _ E). by apply sum_numerica.
Qed.

Lemma soma_coluna_ci_raise df tok :
  tem tok df = true -> clausula_ci df tok = false ->
  soma_coluna_ci df tok = Raise TypeError.
Proof.
  unfold clausula_ci. rewrite tem_rotulo_ci_bool.
  destruct (rotulo_ci df tok) as [c|] eqn:E; [|done].
  intros _ Hn. rewrite (soma_coluna_ci_rotulo _ _ _ E). by apply sum_TypeError.
Qed.

Lemma clausula_ci_sem_coluna df tok : tem tok df = false -> clausula_ci df tok = true.
Proof.
  unfold clausula_ci. rewrite tem_rotulo_ci_bool. by destruct (rotulo_ci df tok).
Qed.

Lemma regra_receita_ok df m :
  clausula_ci df "receita" = true ->
  regra_receita df (colunas_lower df) m =
  Ok (if tem "receita" df then Dict.set "Receita Total" (soma_ci df "receita") m else m).
Proof.
  intros H. unfold regra_receita. fold (tem "receita" df).
  destruct (tem "receita" df) eqn:T; [|done].
  by rewrite soma_coluna_ci_ok.
Qed.

Lemma regra_despesa_ok df m :
  clausula_ci df "despesa" = true ->
  regra_despesa df (colunas_lower df) m =
  Ok (if tem "despesa" df then Dict.set "Custo Operacional Total" (soma_ci df "despesa") m else m).
Proof.
  intros H. unfold regra_despesa. fold (tem "despesa" df).
  destruct (tem "despesa" df) eqn:T; [|done].
  by rewrite soma_coluna_ci_ok.
Qed.

Lemma sem_excecao_clausulas df :
  sem_excecao df = clausula_ci df "receita" && clausula_ci df "despesa"
               && clausula_produtividade df && clausula_ticket df.
Proof. reflexivity. Qed.

Lemma regra_produtividade_ok df m :
  clausula_produtividade df = true ->
  regra_produtividade df (colunas_lower df) m =
  Ok (if tem "funcionario" df && tem "producao" df then
        Dict.set "Produtividade Média"
          (n_div (soma_de df "producao")
                 (n_of_nat (Pandas.nunique (valores df "funcionario")))) m
      else m).
Proof.
  unfold clausula_produtividade, regra_produtividade.
  fold (tem "funcionario" df) (tem "producao" df).
  destruct (tem "funcionario" df && tem "producao" df); [|done].
  intros H. apply andb_prop in H as [H Hf]. apply andb_prop in H as [Hp Hn].
  rewrite soma_coluna_literal, Hp, (sum_numerica _ _ Hn).
  cbn [mbind resultado_bind bind_r].
  by rewrite (getitem_valores _ _ Hf).
Qed.

Lemma regra_produtividade_raise df m :
  clausula_produtividade df = false ->
  exists e, regra_produtividade df (colunas_lower df) m = Raise e.
Proof.
  unfold clausula_produtividade, regra_produtividade.
  fold (tem "funcionario" df) (tem "producao" df).
  destruct (tem "funcionario" df && tem "producao" df); [|done].
  rewrite soma_coluna_literal. unfold Pandas.getitem.
  destruct (Str.contem "producao" (columns df)); [|by eauto].
  unfold coluna_numerica, Pandas.sum. fold (valores df "producao").
  destruct (forallb Pandas.e_numero (valores df "producao")); [|by eauto].
  destruct (Str.contem "funcionario" (columns df)); [done|by eauto].
Qed.

Lemma regra_ticket_ok df m :
  clausula_ticket df = true ->
  regra_ticket df (colunas_lower df) m =
  Ok (if tem "vendas" df && tem "quantidade" df then
        Dict.set "Ticket Médio" (n_div (soma_de df "vendas") (soma_de df "quantidade")) m
      else m).
Proof.
  unfold clausula_ticket, regra_ticket.
  fold (tem "vendas" df) (tem "quantidade" df).
  destruct (tem "vendas" df && tem "quantidade" df); [|done].
  intros H. apply andb_prop in H as [H Hnq]. apply andb_prop in H as [H Hq].
  apply andb_prop in H as [Hv Hnv].
  rewrite !soma_coluna_literal, Hv, Hq, (sum_numerica _ _ Hnv), (sum_numerica _ _ Hnq).
  done.
Qed.

Lemma regra_ticket_raise df m :
  clausula_ticket df = false ->
  exists e, regra_ticket df (colunas_lower df) m = Raise e.
Proof.
  unfold clausula_ticket, regra_ticket.
  fold (tem "vendas" df) (tem "quantidade" df).
  destruct (tem "vendas" df && tem "quantidade" df); [|done].
  rewrite !soma_coluna_literal. unfold coluna_numerica, Pandas.sum.
  destruct (Str.contem "vendas" (columns df)); [|by eauto].
  destruct (forallb Pandas.e_numero (valores df "vendas")); [|by eauto].
  destruct (Str.contem "quantidade" (columns df)); [|by eauto].
  destruct (forallb Pandas.e_numero (valores df "quantidade")); [done|by eauto].
Qed.

Lemma calcular_metricas_sem_excecao df :
  sem_excecao df = true -> calcular_metricas df = Ok (resumo df).
Proof.
  rewrite sem_excecao_clausulas. intros H.
  apply andb_prop in H as [H H4]. apply andb_prop in H as [H H3].
  apply andb_prop in H as [H1 H2].
  unfold calcular_metricas. cbv zeta.
  rewrite (regra_receita_ok _ _ H1). cbn [mbind resultado_bind bind_r].
  rewrite (regra_despesa_ok _ _ H2). cbn [mbind resultado_bind bind_r].
  rewrite (regra_produtividade_ok _ _ H3). cbn [mbind resultado_bind bind_r].
  unfold regra_lucro. fold (tem "receita" df) (tem "despesa" df).
  unfold resumo, indicadores_devidos, requisitos, precondicao.
  cbn [List.filter forallb snd].
  destruct (tem "receita" df), (tem "despesa" df),
    (tem "funcionario" df), (tem "producao" df);
    cbn -[soma_ci soma_de valores Pandas.nunique n_div n_sub regra_ticket tem];
    rewrite (regra_ticket_ok _ _ H4);
    destruct (tem "vendas" df), (tem "quantidade" df); reflexivity.
Qed.

Lemma calcular_metricas_excecao df :
  sem_excecao df = false -> exists e, calcular_metricas df = Raise e.
Proof.
  rewrite sem_excecao_clausulas. intros H.
  unfold calcular_metricas. cbv zeta.
  destruct (clausula_ci df "receita") eqn:H1.
  2:{ unfold regra_receita. fold (tem "receita" df).
      destruct (tem "receita" df) eqn:T.
      - rewrite (soma_coluna_ci_raise _ _ T H1). by eauto.
      - by rewrite (clausula_ci_sem_coluna _ _ T) in H1. }
  rewrite (regra_receita_ok _ _ H1). cbn [mbind resultado_bind bind_r].
  destruct (clausula_ci df "despesa") eqn:H2.
  2:{ unfold regra_despesa. fold (tem "despesa" df).
      destruct (tem "despesa" df) eqn:T.
      - rewrite (soma_coluna_ci_raise _ _ T H2). by eauto.
      - by rewrite (clausula_ci_sem_coluna _ _ T) in H2. }
  rewrite (regra_despesa_ok _ _ H2). cbn [mbind resultado_bind bind_r].
  destruct (clausula_produtividade df) eqn:H3.
  2:{ edestruct regra_produtividade_raise as [e ->]; [done|]. by eauto. }
  rewrite (regra_produtividade_ok _ _ H3). cbn [mbind resultado_bind bind_r].
  destruct (clausula_ticket df) eqn:H4; [done|].
  unfold regra_lucro. fold (tem "receita" df) (tem "despesa" df).
  destruct (tem "receita" df), (tem "despesa" df),
    (tem "funcionario" df && tem "producao" df);
    cbn -[soma_ci soma_de valores Pandas.nunique n_div n_sub regra_ticket tem];
    (edestruct regra_ticket_raise as [e ->]; [done|]; by eauto).
Qed.

(** [sem_excecao] is exactly the condition under which a mapping is returned. *)
Lemma calcular_metricas_Ok_iff df m :
  calcular_metricas df = Ok m <-> sem_excecao df = true /\ m = resumo df.
Proof.
  split.
  - intros H. destruct (sem_excecao df) eqn:R.
    + rewrite (calcular_metricas_sem_excecao _ R) in H. by inversion H.
    + destruct (calcular_metricas_excecao _ R) as [e He]. congruence.
  - intros [R ->]. by apply calcular_metricas_sem_excecao.
Qed.

Lemma tem_literal df c :
  Str.contem c (columns df) = true -> tem (Str.lower c) df = true.
Proof.
  intros H. apply contem_elem_of in H. apply contem_elem_of.
  unfold colunas_lower. apply list_elem_of_fmap. eauto.
Qed.

Lemma n_of_nat_nonzero n :
  n <> 0%nat -> Qeq_bool (inject_Z (Z.of_nat n)) 0 = false.
Proof.
  intros H. destruct (Qeq_bool (inject_Z (Z.of_nat n)) 0) eqn:E; [|done].
  apply Qeq_bool_eq in E. unfold Qeq, inject_Z in E. simpl in E. lia.
Qed.

Lemma n_div_Fin a b :
  ~ (b == 0)%Q -> n_div (Fin a) (Fin b) = Fin (a / b).
Proof.
  intros H. unfold n_div. destruct (Qeq_bool b 0) eqn:E; [|done].
  by apply Qeq_bool_eq in E.
Qed.

Lemma Qplus_zero_r (q : Q) : Qplus q 0 = q.
Proof.
  destruct q as [a b]. unfold Qplus. simpl.
  f_equal; [lia | apply Pos.mul_1_r].
Qed.

Lemma total_nulo_como_zero (s : serie) :
  Forall (fun c => Pandas.e_numero c = true) s ->
  Pandas.total (Pandas.numeros s) = Pandas.total (nulo_como_zero <$> s).
Proof.
  unfold Pandas.total, Pandas.numeros. generalize 0%Q.
  induction s as [|c s IH]; intros acc Hs; [done|].
  inversion Hs as [|? ? Hc Hr]; subst.
  destruct c as [[q|t|t]|]; try done; simpl.
  - by apply IH.
  - rewrite Qplus_zero_r. by apply IH.
Qed.

(** the values [resumo] holds, key by key *)
Ltac casos_resumo df :=
  unfold resumo, indicadores_devidos, requisitos, precondicao;
  cbn [List.filter forallb snd];
  destruct (tem "receita" df) eqn:?, (tem "despesa" df) eqn:?,
    (tem "funcionario" df) eqn:?, (tem "producao" df) eqn:?,
    (tem "vendas" df) eqn:?, (tem "quantidade" df) eqn:?;
  try discriminate;
  cbn -[soma_ci soma_de valores Pandas.nunique n_div n_sub tem].

Lemma regular_sem_excecao df : regular df = true -> sem_excecao df = true.
Proof. unfold regular. by intros [? _]%andb_prop. Qed.

(** A well-formed table gets its mapping. *)
Lemma calcular_metricas_regular df :
  regular df = true -> exists m, calcular_metricas df = Ok m.
Proof.
  intros R. exists (resumo df).
  by apply calcular_metricas_sem_excecao, regular_sem_excecao.
Qed.

Lemma calcular_metricas_resumo df m :
  calcular_metricas df = Ok m -> m = resumo df.
Proof. by intros [_ ->]%calcular_metricas_Ok_iff. Qed.

(** When a mapping is returned and rule 3 fired, the two columns stand in the
    table under their lower-case labels. *)
Lemma produtividade_rotulos df m :
  calcular_metricas df = Ok m ->
  tem "funcionario" df = true -> tem "producao" df = true ->
  Str.contem "producao" (columns df) = true /\
  Str.contem "funcionario" (columns df) = true.
Proof.
  intros [R _]%calcular_metricas_Ok_iff Hf Hp.
  rewrite sem_excecao_clausulas in R.
  apply andb_prop in R as [R _]. apply andb_prop in R as [_ R3].
  unfold clausula_produtividade in R3. rewrite Hf, Hp in R3. simpl in R3.
  apply andb_prop in R3 as [R3 Hcf]. by apply andb_prop in R3 as [Hcp _].
Qed.

(* ================================================================== *)
(** ** Claims on the metrics engine *)

(** C1 (fails on the code).  The claim: every vocabulary token is matched
    case-insensitively and its rule reads the column as the table spells it,
    so renaming such a column to another casing leaves the mapping unchanged.
    On the table with the labels [Funcionario] and [Producao] the guard of
    rule 3 holds through the lowered index, then [df['producao']] looks the
    lower-case label up in the table itself and the call ends in
    [KeyError]; with the two labels in lower case the same table yields the
    indicator. *)
Theorem producao_maiuscula_KeyError :
  tem "funcionario" Exemplos.tabela_maiusculas = true /\
  tem "producao" Exemplos.tabela_maiusculas = true /\
  calcular_metricas Exemplos.tabela_maiusculas = Raise (KeyError "producao") /\
  calcular_metricas Exemplos.tabela_minusculas = Ok [("Produtividade Média", Fin 10)].
Proof. repeat split; vm_compute; reflexivity. Qed.

(** C2.  A well-formed table gets a mapping, and whatever mapping the engine
    returns for a table holds, when a receita and a despesa column are both
    present, [Lucro Líquido] equal to the stored [Receita Total] minus the
    stored [Custo Operacional Total] (the two column sums); when one of the
    two columns is missing, it holds no [Lucro Líquido] at all. *)
Theorem lucro_liquido_regra (df : DataFrame) :
  (regular df = true -> exists m, calcular_metricas df = Ok m) /\
  (forall m, calcular_metricas df = Ok m ->
     (tem "receita" df = true -> tem "despesa" df = true ->
        exists r c,
          Dict.get "Receita Total" m = Some r /\ r = soma_ci df "receita" /\
          Dict.get "Custo Operacional Total" m = Some c /\ c = soma_ci df "despesa" /\
          Dict.get "Lucro Líquido" m = Some (n_sub r c)) /\
     (tem "receita" df = false \/ tem "despesa" df = false ->
        Dict.get "Lucro Líquido" m = None)).
Proof.
  split; [apply calcular_metricas_regular|].
  intros m ->%calcular_metricas_resumo. split.
  - intros Hr Hd. exists (soma_ci df "receita"), (soma_ci df "despesa").
    casos_resumo df; repeat split; reflexivity.
  - intros H. casos_resumo df; destruct H; try discriminate; reflexivity.
Qed.

Lemma lucro_liquido_regra_witness :
  (exists m, calcular_metricas Exemplos.tabela_financeira = Ok m /\
     Dict.get "Lucro Líquido" m = Some (Fin 260)) /\
  Dict.get "Lucro Líquido" [("Receita Total", Fin 7)] = None.
Proof.
  split.
  - destruct (lucro_liquido_regra Exemplos.tabela_financeira) as [Hex Hall].
    destruct Hex as [m Hm]; [vm_compute; reflexivity|].
    exists m. split; [exact Hm|].
    destruct (proj1 (Hall m Hm)) as (r & c & _ & -> & _ & -> & ->).
    + vm_compute. reflexivity.
    + vm_compute. reflexivity.
    + vm_compute. reflexivity.
  - refine (proj2 (proj2 (lucro_liquido_regra Exemplos.tabela_so_receita) _ _) _).
    + vm_compute. reflexivity.
    + right. vm_compute. reflexivity.
Defined.

(** C5 (fails on the code).  The claim: for every table in which a
    funcionario and a producao column are present, the number of distinct
    funcionario values being nonzero, the mapping holds
    [Produtividade Média], the sum of producao over that number.  Presence is
    matched without regard to case, and so is the guard of rule 3; the read
    [df['producao']] is not.  With funcionario = [1,1,2] and
    producao = [10,20,30] under the labels [Funcionario] and [Producao], both
    columns are present, the funcionario column holds two distinct values and
    the producao column sums to 60, yet the call ends in [KeyError] and no
    mapping is returned; the same rows under the lower-case labels yield
    60/2 = 30.  The defect is the one of C1, met here from the side of the
    rule. *)
Theorem produtividade_maiusculas_KeyError :
  tem "funcionario" Casos.tabela_equipe_maiusculas = true /\
  tem "producao" Casos.tabela_equipe_maiusculas = true /\
  rotulo_ci Casos.tabela_equipe_maiusculas "funcionario" = Some "Funcionario" /\
  rotulo_ci Casos.tabela_equipe_maiusculas "producao" = Some "Producao" /\
  Pandas.nunique (valores Casos.tabela_equipe_maiusculas "Funcionario") = 2%nat /\
  Pandas.sum (valores Casos.tabela_equipe_maiusculas "Producao") = Ok (Fin 60) /\
  calcular_metricas Casos.tabela_equipe_maiusculas = Raise (KeyError "producao") /\
  renomear "Producao" "producao"
    (renomear "Funcionario" "funcionario" Casos.tabela_equipe_maiusculas)
    = Exemplos.tabela_produtividade /\
  exists v, calcular_metricas Exemplos.tabela_produtividade
              = Ok [("Produtividade Média", Fin v)] /\ (v == 30)%Q.
Proof.
  repeat (split; [vm_compute; reflexivity|]).
  eexists. split; [vm_compute; reflexivity|]. reflexivity.
Qed.

(** C10.  A well-formed table gets a mapping, and whatever mapping the engine
    returns for a table with the labels [vendas] and [quantidade] themselves
    holds [Ticket Médio], the sum of vendas divided by the sum of quantidade,
    whatever the denominator is; with a nonzero sum of quantidade it is the
    quotient of the two sums as a finite number.  With the one row
    vendas = 5, quantidade = 0 the entry is still written, as an infinity. *)
Theorem ticket_medio_regra :
  (forall df : DataFrame, regular df = true -> exists m, calcular_metricas df = Ok m) /\
  (forall (df : DataFrame) (m : list (string * numero)),
     calcular_metricas df = Ok m ->
     Str.contem "vendas" (columns df) = true ->
     Str.contem "quantidade" (columns df) = true ->
     Dict.get "Ticket Médio" m =
       Some (n_div (soma_de df "vendas") (soma_de df "quantidade")) /\
     (~ (Pandas.total (Pandas.numeros (valores df "quantidade")) == 0)%Q ->
      Dict.get "Ticket Médio" m =
        Some (Fin (Pandas.total (Pandas.numeros (valores df "vendas"))
                   / Pandas.total (Pandas.numeros (valores df "quantidade")))))) /\
  calcular_metricas Exemplos.tabela_vendas_zero = Ok [("Ticket Médio", Inf false)].
Proof.
  split; [apply calcular_metricas_regular|]. split; [|vm_compute; reflexivity].
  intros df m ->%calcular_metricas_resumo Hv Hq.
  apply tem_literal in Hv, Hq.
  change (tem "vendas" df = true) in Hv. change (tem "quantidade" df = true) in Hq.
  assert (Hget : Dict.get "Ticket Médio" (resumo df) =
            Some (n_div (soma_de df "vendas") (soma_de df "quantidade"))).
  { casos_resumo df; reflexivity. }
  split; [exact Hget|].
  intros Hn. rewrite Hget. f_equal. unfold soma_de. by apply n_div_Fin.
Qed.

Lemma ticket_medio_regra_witness :
  exists m, calcular_metricas Exemplos.tabela_vendas = Ok m /\
    Dict.get "Ticket Médio" m = Some (Fin (120 # 3)).
Proof.
  destruct ticket_medio_regra as (Hex & Hall & _).
  destruct (Hex Exemplos.tabela_vendas) as [m Hm]; [vm_compute; reflexivity|].
  exists m. split; [exact Hm|].
  destruct (Hall Exemplos.tabela_vendas m Hm) as (_ & Hq).
  - vm_compute. reflexivity.
  - vm_compute. reflexivity.
  - rewrite Hq.
    + vm_compute. reflexivity.
    + vm_compute. discriminate.
Defined.

Lemma sublist_filter_fst {A B} (f : A * B -> bool) (l : list (A * B)) :
  sublist (List.filter f l).*1 l.*1.
Proof.
  induction l as [|x l IH]; simpl; [constructor|].
  destruct (f x); simpl; by constructor.
Qed.

Lemma keys_resumo df : Dict.keys (resumo df) = indicadores_devidos df.
Proof.
  unfold Dict.keys, resumo. rewrite <- list_fmap_compose.
  apply list_fmap_id.
Qed.

Lemma sem_vocabulario_resumo df :
  (forall tok, tok ∈ vocabulario -> tem tok df = false) ->
  sem_excecao df = true /\ resumo df = [].
Proof.
  intros H.
  assert (Hr : tem "receita" df = false) by (apply H; set_solver).
  assert (Hd : tem "despesa" df = false) by (apply H; set_solver).
  assert (Hf : tem "funcionario" df = false) by (apply H; set_solver).
  assert (Hp : tem "producao" df = false) by (apply H; set_solver).
  assert (Hv : tem "vendas" df = false) by (apply H; set_solver).
  assert (Hq : tem "quantidade" df = false) by (apply H; set_solver).
  split.
  - rewrite sem_excecao_clausulas. unfold clausula_produtividade, clausula_ticket.
    rewrite !clausula_ci_sem_coluna by done. by rewrite Hf, Hv.
  - unfold resumo, indicadores_devidos, requisitos, precondicao.
    cbn [List.filter forallb snd]. by rewrite Hr, Hd, Hf, Hv.
Qed.

(** C6, as the claim states it, fails: on a table whose receita column took
    the number 100 from one file and the text [abc] from another, the
    precondition of [Receita Total] is met and the sum raises [TypeError], so
    no mapping is returned. *)
Lemma tabela_mista_sem_mapeamento :
  indicadores_devidos Exemplos.tabela_mista = ["Receita Total"] /\
  calcular_metricas Exemplos.tabela_mista = Raise TypeError /\
  ~ (exists m, calcular_metricas Exemplos.tabela_mista = Ok m /\
               Dict.keys m = indicadores_devidos Exemplos.tabela_mista).
Proof.
  split; [vm_compute; reflexivity|]. split; [vm_compute; reflexivity|].
  intros (m & Hm & _). vm_compute in Hm. discriminate.
Qed.

(** C6, amended.  A well-formed table gets a mapping, and whatever mapping
    [calcular_metricas] returns for a table has as keys exactly the
    indicators whose column preconditions are met, drawn from the five
    indicators and in their evaluation order; for every table with none of
    the recognized columns it returns the empty mapping, raising nothing. *)
Theorem chaves_das_metricas :
  (forall df : DataFrame, regular df = true -> exists m, calcular_metricas df = Ok m) /\
  (forall (df : DataFrame) (m : list (string * numero)),
     calcular_metricas df = Ok m ->
     Dict.keys m = indicadores_devidos df /\
     sublist (Dict.keys m) indicadores /\
     (forall k, k ∈ Dict.keys m <->
        exists toks, (k, toks) ∈ requisitos /\ precondicao df toks = true)) /\
  (forall df : DataFrame,
     (forall tok, tok ∈ vocabulario -> tem tok df = false) ->
     calcular_metricas df = Ok []).
Proof.
  split; [apply calcular_metricas_regular|]. split.
  - intros df m ->%calcular_metricas_resumo.
    rewrite keys_resumo. split; [done|].
    split; [apply sublist_filter_fst|].
    intros k. unfold indicadores_devidos. rewrite list_elem_of_fmap. split.
    + intros ([k' toks] & -> & Hin). apply list_elem_of_In, filter_In in Hin as [Hin Hp].
      exists toks. split; [by apply list_elem_of_In | done].
    + intros (toks & Hin & Hp). exists (k, toks). split; [done|].
      apply list_elem_of_In, filter_In. split; [by apply list_elem_of_In | done].
  - intros df H. destruct (sem_vocabulario_resumo df H) as [R E].
    rewrite (calcular_metricas_sem_excecao _ R). by rewrite E.
Qed.

Lemma chaves_das_metricas_witness :
  (exists m, calcular_metricas Exemplos.tabela_financeira = Ok m /\
     Dict.keys m = ["Receita Total"; "Custo Operacional Total"; "Lucro Líquido"]) /\
  calcular_metricas Exemplos.tabela_sem_vocabulario = Ok [].
Proof.
  destruct chaves_das_metricas as (Hex & Hall & Hnone).
  split.
  - destruct (Hex Exemplos.tabela_financeira) as [m Hm]; [vm_compute; reflexivity|].
    exists m. split; [exact Hm|].
    destruct (Hall Exemplos.tabela_financeira m Hm) as (Hk & _).
    rewrite Hk. vm_compute. reflexivity.
  - apply Hnone. intros tok Htok.
    repeat (apply elem_of_cons in Htok as [->|Htok]; [vm_compute; reflexivity|]).
    by apply elem_of_nil in Htok.
Defined.

(* ================================================================== *)
(** ** The loader *)

Lemma anota_nil w : anota w [] = w.
Proof. destruct w. unfold anota. simpl. by rewrite app_nil_r. Qed.

Lemma anota_anota w a b : anota (anota w a) b = anota w (a ++ b).
Proof. unfold anota. simpl. by rewrite app_assoc. Qed.

Lemma concat_linhas_acc (dfs : list DataFrame) (acc : list (gmap string valor)) :
  fold_left (fun acc d => acc ++ linhas d) dfs acc = acc ++ (dfs ≫= linhas).
Proof.
  revert acc. induction dfs as [|d dfs IH]; intros acc; simpl.
  - by rewrite app_nil_r.
  - rewrite IH. by rewrite app_assoc.
Qed.

Lemma concat_columns_acc (c : string) (dfs : list DataFrame) (acc : list string) :
  Str.contem c (fold_left (fun acc d => Pandas.uniao_rotulos acc (columns d)) dfs acc) =
  Str.contem c acc || existsb (fun d => Str.contem c (columns d)) dfs.
Proof.
  revert acc. induction dfs as [|d dfs IH]; intros acc; simpl.
  - by rewrite orb_false_r.
  - rewrite IH. rewrite orb_assoc. f_equal.
    unfold Pandas.uniao_rotulos. rewrite contem_app.
    destruct (Str.contem c acc) eqn:Ea; simpl.
    + destruct (Str.contem c (columns d)); done.
    + destruct (Str.contem c (columns d)) eqn:Ed.
      * apply contem_elem_of. apply list_elem_of_filter. split; [done|].
        by apply contem_elem_of.
      * destruct (Str.contem c (filter _ (columns d))) eqn:Ef; [|done].
        apply contem_elem_of, list_elem_of_filter in Ef as [_ Ef].
        apply contem_elem_of in Ef. congruence.
Qed.

Lemma concat_Ok (dfs : list DataFrame) :
  dfs <> [] ->
  exists df, Pandas.concat dfs = Ok df /\
    linhas df = dfs ≫= linhas /\
    (forall c, Str.contem c (columns df) = existsb (fun d => Str.contem c (columns d)) dfs).
Proof.
  intros H. destruct dfs as [|d dfs]; [done|].
  eexists. split; [reflexivity|]. split.
  - cbn [linhas]. by rewrite concat_linhas_acc.
  - intros c. cbn [columns]. by rewrite concat_columns_acc.
Qed.

Section CarregarProvas.
Variable amb : Ambiente.

Lemma ler_arquivo_Ok d a t :
  ler_arquivo amb d a = Ok t <->
  exists t0, leitura amb d a = Ok t0 /\
             t = Pandas.setitem_escalar t0 "Origem_Arquivo" (Texto a).
Proof.
  unfold ler_arquivo. destruct (leitura amb d a) as [t0|e]; simpl.
  - split; [intros [= <-]; eauto | by intros (? & [= <-] & ->)].
  - split; [done | by intros (? & ? & _)].
Qed.

Lemma ler_arquivo_Raise d a e :
  ler_arquivo amb d a = Raise e <-> leitura amb d a = Raise e.
Proof.
  unfold ler_arquivo. destruct (leitura amb d a) as [t0|e']; simpl; [done|].
  split; by intros [= <-].
Qed.

Lemma carregar_arquivos_cons d a resto dfs w :
  carregar_arquivos amb d (a :: resto) dfs w =
  match ler_arquivo amb d a with
  | Ok t => carregar_arquivos amb d resto (dfs ++ [t]) w
  | Raise e => carregar_arquivos amb d resto dfs (anota w [aviso a e])
  end.
Proof.
  simpl. unfold Efeito.bind, Efeito.tenta, Efeito.lift.
  by destruct (ler_arquivo amb d a).
Qed.

(** The loop: the tables of the files that parse are appended in listing
    order, one warning is printed for each of the others, nothing stops. *)
Lemma carregar_arquivos_spec d arquivos dfs w :
  carregar_arquivos amb d arquivos dfs w =
  (Ok (dfs ++ carregados amb d arquivos), anota w (avisos amb d arquivos)).
Proof.
  revert dfs w. induction arquivos as [|a resto IH]; intros dfs w.
  - simpl. unfold Efeito.ret. by rewrite app_nil_r, anota_nil.
  - rewrite carregar_arquivos_cons.
    unfold carregados, avisos. rewrite !bind_cons.
    fold (carregados amb d resto) (avisos amb d resto).
    destruct (ler_arquivo amb d a) as [t|e].
    + rewrite IH. simpl. by rewrite <- app_assoc.
    + rewrite IH. by rewrite anota_anota.
Qed.

Lemma carregados_linhas d arquivos :
  carregados amb d arquivos ≫= linhas = arquivos ≫= bloco amb d.
Proof.
  unfold carregados, bloco, ler_arquivo.
  induction arquivos as [|a resto IH]; [done|].
  rewrite !bind_cons, bind_app, IH. f_equal.
  destruct (leitura amb d a) as [t|e]; simpl; [by rewrite app_nil_r | done].
Qed.

Lemma carregados_nil d arquivos :
  carregados amb d arquivos = [] <->
  forall a, a ∈ arquivos -> exists e, leitura amb d a = Raise e.
Proof.
  unfold carregados, ler_arquivo.
  induction arquivos as [|a resto IH].
  - split; [intros _ a Ha; by apply elem_of_nil in Ha | done].
  - rewrite bind_cons. split.
    + intros H. apply app_eq_nil in H as [Ha Hr].
      intros b Hb. apply elem_of_cons in Hb as [->|Hb].
      * destruct (leitura amb d a) as [t|e]; [done | eauto].
      * by apply IH.
    + intros H. destruct (H a) as [e He]; [by left|]. rewrite He. simpl.
      apply IH. intros b Hb. apply H. by right.
Qed.

(** [carregar_dados] in one equation, given the listing. *)
Lemma carregar_dados_spec d nomes w :
  listdir amb d = Ok nomes ->
  carregar_dados amb d w =
  match elegiveis nomes with
  | [] => (Raise NoInputFiles, w)
  | _ :: _ =>
      match carregados amb d (elegiveis nomes) with
      | [] => (Raise NoLoadableData, anota w (avisos amb d (elegiveis nomes)))
      | dfs => (Pandas.concat dfs, anota w (avisos amb d (elegiveis nomes)))
      end
  end.
Proof.
  intros Hl. unfold carregar_dados, Efeito.bind at 1, Efeito.lift at 1.
  rewrite Hl. fold (elegiveis nomes).
  destruct (elegiveis nomes) as [|a resto] eqn:E; [done|].
  unfold Efeito.bind at 1. rewrite carregar_arquivos_spec. rewrite app_nil_l.
  destruct (carregados amb d (a :: resto)) as [|t ts] eqn:C; [done|].
  unfold Efeito.bind, Efeito.lift, Efeito.ret. reflexivity.
Qed.

Lemma carregar_dados_listdir d w df w' :
  carregar_dados amb d w = (Ok df, w') -> exists nomes, listdir amb d = Ok nomes.
Proof.
  unfold carregar_dados, Efeito.bind at 1, Efeito.lift at 1.
  destruct (listdir amb d) as [nomes|e]; [eauto | done].
Qed.

(** What a successful load returns. *)
Lemma carregar_dados_Ok d w df w' :
  carregar_dados amb d w = (Ok df, w') ->
  exists nomes, listdir amb d = Ok nomes /\
    carregados amb d (elegiveis nomes) <> [] /\
    Pandas.concat (carregados amb d (elegiveis nomes)) = Ok df /\
    linhas df = elegiveis nomes ≫= bloco amb d /\
    w' = anota w (avisos amb d (elegiveis nomes)).
Proof.
  intros H. destruct (carregar_dados_listdir _ _ _ _ H) as [nomes Hl].
  exists nomes. split; [done|].
  rewrite (carregar_dados_spec _ _ _ Hl) in H.
  destruct (elegiveis nomes) as [|a resto] eqn:E; [done|].
  destruct (carregados amb d (a :: resto)) as [|t ts] eqn:C; [done|].
  assert (Hc : Pandas.concat (t :: ts) = Ok df) by congruence.
  assert (Hw : w' = anota w (avisos amb d (a :: resto))) by congruence.
  split; [done|]. split; [done|]. split; [|done].
  destruct (concat_Ok (t :: ts)) as (df' & Hc' & Hrows & _); [done|].
  assert (df' = df) by congruence. subst df'.
  rewrite Hrows, <- C. apply carregados_linhas.
Qed.

End CarregarProvas.

Lemma elegiveis_nil nomes :
  elegiveis nomes = [] <-> forall f, f ∈ nomes -> extensao_reconhecida f = false.
Proof.
  unfold elegiveis. split.
  - intros H f Hf. destruct (extensao_reconhecida f) eqn:E; [|done].
    assert (Hin : f ∈ filter (fun f => extensao_reconhecida f = true) nomes)
      by by apply list_elem_of_filter.
    rewrite H in Hin. by apply elem_of_nil in Hin.
  - intros H. induction nomes as [|f nomes IH]; [done|].
    rewrite filter_cons, decide_False.
    + apply IH. intros g Hg. apply H. by right.
    + rewrite H; [done | by left].
Qed.

Lemma carregados_Origem amb d arquivos t :
  t ∈ carregados amb d arquivos ->
  Str.contem "Origem_Arquivo" (columns t) = true.
Proof.
  unfold carregados. intros H. apply list_elem_of_bind in H as (a & Ht & _).
  destruct (ler_arquivo amb d a) as [t'|e] eqn:E; [|by apply elem_of_nil in Ht].
  apply list_elem_of_singleton in Ht as ->.
  apply ler_arquivo_Ok in E as (t0 & _ & ->).
  unfold Pandas.setitem_escalar. cbn [columns].
  destruct (Str.contem "Origem_Arquivo" (columns t0)) eqn:C; [done|].
  rewrite contem_app, C. reflexivity.
Qed.

Lemma bloco_Origem amb d a r :
  r ∈ bloco amb d a -> r !! "Origem_Arquivo" = Some (Texto a).
Proof.
  unfold bloco. destruct (leitura amb d a) as [t|e]; [|by intros ?%elem_of_nil].
  intros H. apply list_elem_of_fmap in H as (r0 & -> & _).
  apply lookup_insert_eq.
Qed.

(* ================================================================== *)
(** ** Claims on the loader *)

(** C3.  With the listing of the directory at hand: when no name in it has a
    recognized extension the load fails with [NoInputFiles]; when some name
    has one and every such file fails to parse it fails with
    [NoLoadableData]; when at least one such file parses the load succeeds,
    the files that fail give no row and one warning each on standard output,
    and the rows of all the others are loaded. *)
Theorem carregar_dados_erros (amb : Ambiente) (d : string) (nomes : list string) (w : Mundo) :
  listdir amb d = Ok nomes ->
  ((forall f, f ∈ nomes -> extensao_reconhecida f = false) ->
     carregar_dados amb d w = (Raise NoInputFiles, w)) /\
  ((exists f, f ∈ nomes /\ extensao_reconhecida f = true) ->
   (forall a, a ∈ elegiveis nomes -> exists e, leitura amb d a = Raise e) ->
     carregar_dados amb d w =
       (Raise NoLoadableData, anota w (avisos amb d (elegiveis nomes)))) /\
  ((exists a t, a ∈ elegiveis nomes /\ leitura amb d a = Ok t) ->
     exists df,
       carregar_dados amb d w = (Ok df, anota w (avisos amb d (elegiveis nomes))) /\
       linhas df = elegiveis nomes ≫= bloco amb d /\
       (forall a e, a ∈ elegiveis nomes -> leitura amb d a = Raise e ->
          bloco amb d a = [] /\ aviso a e ∈ avisos amb d (elegiveis nomes))).
Proof.
  intros Hl. pose proof (carregar_dados_spec amb d nomes w Hl) as S.
  split; [|split].
  - intros H. apply elegiveis_nil in H. by rewrite H in S.
  - intros (f & Hf & Hrec) Hall.
    destruct (elegiveis nomes) as [|a resto] eqn:E.
    { assert (Hin : f ∈ elegiveis nomes) by by apply list_elem_of_filter.
      rewrite E in Hin. by apply elem_of_nil in Hin. }
    apply carregados_nil in Hall. by rewrite Hall in S.
  - intros (a & t & Ha & Ht).
    destruct (elegiveis nomes) as [|a0 resto] eqn:E; [by apply elem_of_nil in Ha|].
    destruct (carregados amb d (a0 :: resto)) as [|t0 ts] eqn:C.
    { pose proof (proj1 (carregados_nil amb d (a0 :: resto)) C a Ha) as [e He].
      congruence. }
    destruct (concat_Ok (t0 :: ts)) as (df & Hc & Hrows & _); [done|].
    exists df. split; [by rewrite S, Hc|]. split.
    + rewrite Hrows, <- C. apply carregados_linhas.
    + intros b e Hb He. split.
      * unfold bloco. by rewrite He.
      * unfold avisos. apply list_elem_of_bind. exists b. split; [|done].
        apply ler_arquivo_Raise in He. rewrite He. by left.
Qed.

Lemma carregar_dados_erros_witness :
  carregar_dados Exemplos.ambiente "vazio" Exemplos.mundo0
    = (Raise NoInputFiles, Exemplos.mundo0) /\
  (carregar_dados Exemplos.ambiente "quebrados" Exemplos.mundo0).1
    = Raise NoLoadableData /\
  exists df, (carregar_dados Exemplos.ambiente "misto" Exemplos.mundo0).1 = Ok df /\
             length (linhas df) = 3%nat.
Proof.
  split; [|split].
  - refine (proj1 (carregar_dados_erros Exemplos.ambiente "vazio" ["leiame.txt"]
                     Exemplos.mundo0 eq_refl) _).
    intros f Hf. apply list_elem_of_singleton in Hf as ->. vm_compute. reflexivity.
  - rewrite (proj1 (proj2 (carregar_dados_erros Exemplos.ambiente "quebrados"
                             ["quebrado.xlsx"; "leiame.txt"] Exemplos.mundo0 eq_refl))).
    + reflexivity.
    + exists "quebrado.xlsx". split; [by left | vm_compute; reflexivity].
    + intros a Ha. vm_compute in Ha. apply list_elem_of_singleton in Ha as ->.
      eexists. vm_compute. reflexivity.
  - destruct (proj2 (proj2 (carregar_dados_erros Exemplos.ambiente "misto"
                ["a.csv"; "quebrado.xlsx"; "leiame.txt"; "b.csv"] Exemplos.mundo0 eq_refl)))
      as (df & Hdf & Hrows & _).
    + exists "a.csv", Exemplos.a_csv. split; [|vm_compute; reflexivity].
      vm_compute. by left.
    + exists df. rewrite Hdf. split; [reflexivity|]. rewrite Hrows.
      vm_compute. reflexivity.
Defined.

(** C7.  When the load succeeds, the rows of the consolidated table are the
    blocks of the eligible files one after the other in listing order: the
    rows of a file come after all rows of the files listed before it and
    before all rows of the files listed after it; inside its block a parsed
    file has all of its rows, as many as it had, each at its own position. *)
Theorem ordem_das_linhas (amb : Ambiente) (d : string) (w w' : Mundo) (df : DataFrame) :
  carregar_dados amb d w = (Ok df, w') ->
  exists nomes, listdir amb d = Ok nomes /\
    linhas df = elegiveis nomes ≫= bloco amb d /\
    (forall antes a depois,
       elegiveis nomes = antes ++ a :: depois ->
       linhas df = (antes ≫= bloco amb d) ++ bloco amb d a ++ (depois ≫= bloco amb d)) /\
    (forall a t,
       leitura amb d a = Ok t ->
       length (bloco amb d a) = length (linhas t) /\
       forall i, bloco amb d a !! i =
                 (fun r : gmap string valor => <["Origem_Arquivo" := Texto a]> r)
                   <$> (linhas t !! i)).
Proof.
  intros H. apply carregar_dados_Ok in H as (nomes & Hl & _ & _ & Hrows & _).
  exists nomes. split; [done|]. split; [done|]. split.
  - intros antes a depois E. rewrite Hrows, E.
    by rewrite bind_app, bind_cons.
  - intros a t Ht. unfold bloco. rewrite Ht. split.
    + apply length_fmap.
    + intros i. apply list_lookup_fmap.
Qed.

Lemma ordem_das_linhas_witness :
  exists df, (carregar_dados Exemplos.ambiente "misto" Exemplos.mundo0).1 = Ok df /\
    linhas df =
      [ linha_de [("receita", Num 100); ("despesa", Num 40); ("Origem_Arquivo", Texto "a.csv")];
        linha_de [("receita", Num 200); ("despesa", Num 60); ("Origem_Arquivo", Texto "a.csv")];
        linha_de [("receita", Num 50); ("Origem_Arquivo", Texto "b.csv")] ].
Proof.
  destruct (carregar_dados Exemplos.ambiente "misto" Exemplos.mundo0) as [r w'] eqn:E.
  destruct r as [df|e]; [|vm_compute in E; discriminate].
  destruct (ordem_das_linhas _ _ _ _ _ E) as (nomes & Hl & Hrows & _).
  exists df. split; [reflexivity|].
  vm_compute in Hl. injection Hl as <-. rewrite Hrows.
  vm_compute. reflexivity.
Defined.

(** C8.  When the load succeeds, [Origem_Arquivo] is a column of the
    consolidated table, and every row of the table is a row of a parsed
    eligible file with [Origem_Arquivo] set to the name of that file as the
    listing gives it (the file itself being read at the joined path); all
    rows of the block of one file hold that same name. *)
Theorem origem_arquivo (amb : Ambiente) (d : string) (w w' : Mundo) (df : DataFrame) :
  carregar_dados amb d w = (Ok df, w') ->
  Str.contem "Origem_Arquivo" (columns df) = true /\
  (exists nomes, listdir amb d = Ok nomes /\
     linhas df = elegiveis nomes ≫= bloco amb d /\
     forall r, r ∈ linhas df ->
       exists a t r0,
         a ∈ elegiveis nomes /\
         (if Str.endswith a ".csv" then read_csv amb (Str.path_join d a)
          else read_excel amb (Str.path_join d a)) = Ok t /\
         r0 ∈ linhas t /\
         r = <["Origem_Arquivo" := Texto a]> r0 /\
         r !! "Origem_Arquivo" = Some (Texto a)) /\
  (forall a, Forall (fun r : gmap string valor => r !! "Origem_Arquivo" = Some (Texto a))
               (bloco amb d a)).
Proof.
  intros H. apply carregar_dados_Ok in H as (nomes & Hl & Hne & Hc & Hrows & _).
  split; [|split].
  - destruct (concat_Ok _ Hne) as (df' & Hc' & _ & Hcols).
    assert (df' = df) by congruence. subst df'. rewrite Hcols.
    destruct (carregados amb d (elegiveis nomes)) as [|t ts] eqn:C; [done|].
    simpl. rewrite (carregados_Origem amb d (elegiveis nomes) t); [done|].
    rewrite C. by left.
  - exists nomes. split; [done|]. split; [done|].
    intros r Hr. rewrite Hrows in Hr.
    apply list_elem_of_bind in Hr as (a & Hr & Ha).
    pose proof (bloco_Origem _ _ _ _ Hr) as Ho.
    unfold bloco in Hr. destruct (leitura amb d a) as [t|e] eqn:E;
      [|by apply elem_of_nil in Hr].
    apply list_elem_of_fmap in Hr as (r0 & -> & Hr0).
    by exists a, t, r0.
  - intros a. apply Forall_forall. intros r Hr. by apply bloco_Origem in Hr.
Qed.

Lemma origem_arquivo_witness :
  exists df, (carregar_dados Exemplos.ambiente "relatorios" Exemplos.mundo0).1 = Ok df /\
    columns df = ["receita"; "despesa"; "Origem_Arquivo"] /\
    valores df "Origem_Arquivo" =
      [Some (Texto "a.csv"); Some (Texto "a.csv"); Some (Texto "b.csv")].
Proof.
  destruct (carregar_dados Exemplos.ambiente "relatorios" Exemplos.mundo0) as [r w'] eqn:E.
  destruct r as [df|e]; [|vm_compute in E; discriminate].
  destruct (origem_arquivo _ _ _ _ _ E) as (_ & (nomes & Hl & Hrows & _) & _).
  exists df. split; [reflexivity|].
  vm_compute in E. injection E as <- _.
  split; vm_compute; reflexivity.
Defined.

(** C4.  A sum over a column of numbers and nulls is the sum with every null
    counted as 0.  For the directory with the two files of the scenario, one
    with receita and despesa and the rows [100,40] and [200,60], one with
    receita alone and the row [50], the consolidated table has a null despesa
    in its third row and the mapping is Receita Total 350, Custo Operacional
    Total 100, Lucro Líquido 250. *)
Theorem nulos_somam_zero :
  (forall (df : DataFrame) (c : string),
     coluna_numerica df c = true ->
     Pandas.sum (valores df c)
       = Ok (Fin (Pandas.total (nulo_como_zero <$> valores df c)))) /\
  (exists df,
     carregar_dados Exemplos.ambiente "relatorios" Exemplos.mundo0
       = (Ok df, Exemplos.mundo0) /\
     valores df "receita" = [Some (Num 100); Some (Num 200); Some (Num 50)] /\
     valores df "despesa" = [Some (Num 40); Some (Num 60); None] /\
     calcular_metricas df
       = Ok [ ("Receita Total", Fin 350);
              ("Custo Operacional Total", Fin 100);
              ("Lucro Líquido", Fin 250) ]).
Proof.
  split.
  - intros df c H. rewrite (sum_numerica _ _ H). unfold soma_de.
    rewrite total_nulo_como_zero; [done|].
    unfold coluna_numerica in H. apply Forall_forall. intros x Hx.
    rewrite forallb_forall in H. apply H. by apply list_elem_of_In.
  - eexists. split; [vm_compute; reflexivity|].
    repeat split; vm_compute; reflexivity.
Qed.

Lemma nulos_somam_zero_witness :
  Pandas.sum (valores Exemplos.tabela_despesa_nula "despesa") = Ok (Fin 100).
Proof.
  rewrite (proj1 nulos_somam_zero Exemplos.tabela_despesa_nula "despesa").
  - vm_compute. reflexivity.
  - vm_compute. reflexivity.
Defined.

(* ================================================================== *)
(** ** The exporters and the shared table *)

Lemma caminhos_distintos (o : string) :
  Str.path_join o "relatorio_administrativo.pdf"
  <> Str.path_join o "relatorio_administrativo.xlsx".
Proof.
  unfold Str.path_join. cbn [Str.startswith String.prefix].
  change (if Ascii.ascii_dec "/" "r" then _ else false) with false. cbv iota.
  destruct (String.eqb o "" || Str.endswith o "/"); intros H.
  - apply (inj (String.app o)) in H. discriminate.
  - apply (inj (String.app o)) in H. discriminate.
Qed.

Lemma atribuir_lookup c (rs : list (gmap string valor)) (s : serie) i :
  Pandas.atribuir c rs s !! i =
  (fun r : gmap string valor =>
     match s !! i with
     | Some (Some v) => <[c := v]> r
     | _ => delete c r
     end) <$> (rs !! i).
Proof.
  revert s i. induction rs as [|r rs IH]; intros s i; [done|].
  destruct i as [|i]; simpl.
  - by destruct s.
  - rewrite IH. by destruct s.
Qed.

Lemma atribuir_length c (rs : list (gmap string valor)) (s : serie) :
  length (Pandas.atribuir c rs s) = length rs.
Proof.
  revert s. induction rs as [|r rs IH]; intros s; simpl; [done | by rewrite IH].
Qed.

Lemma setitem_columns_presente df c s :
  Str.contem c (columns df) = true -> columns (Pandas.setitem df c s) = columns df.
Proof. intros H. unfold Pandas.setitem. cbn [columns]. by rewrite H. Qed.

Lemma gerar_graficos_sem_data amb df saida w t :
  objetos w !! df = Some t ->
  Str.contem "data" (columns t) = false ->
  gerar_graficos amb df saida w = (Ok tt, w).
Proof.
  intros Ht Hd. unfold gerar_graficos, Efeito.bind, Efeito.le.
  rewrite Ht, Hd. reflexivity.
Qed.

Lemma gerar_graficos_com_data amb df saida w t :
  objetos w !! df = Some t ->
  Str.contem "data" (columns t) = true ->
  exists w' copia,
    gerar_graficos amb df saida w = (Ok tt, w') /\
    objetos w' !! df = Some (tabela_coagida amb t) /\
    copia <> df /\ objetos w !! copia = None /\
    objetos w' !! copia = Some (copia_dos_graficos amb t) /\
    (forall r, r <> df -> r <> copia -> objetos w' !! r = objetos w !! r) /\
    pastas w' = pastas w.
Proof.
  intros Ht Hd.
  set (o1 := <[df := tabela_coagida amb t]> (objetos w)).
  set (copia := fresh (dom o1)).
  assert (Hfresh : copia ∉ dom o1) by apply is_fresh.
  assert (Hne : copia <> df).
  { intros E. apply Hfresh. rewrite E. unfold o1. rewrite dom_insert. set_solver. }
  assert (Hnone : objetos w !! copia = None).
  { apply not_elem_of_dom. intros Hin. apply Hfresh. unfold o1.
    rewrite dom_insert. set_solver. }
  assert (Hd' : Str.contem "data" (columns (Pandas.dropna (tabela_coagida amb t) "data")) = true).
  { unfold Pandas.dropna, tabela_coagida. cbn [columns].
    by rewrite setitem_columns_presente. }
  unfold gerar_graficos.
  unfold Efeito.bind at 1. unfold Efeito.le at 1. rewrite Ht, Hd.
  unfold Efeito.bind at 1. unfold Efeito.lift at 1. rewrite (getitem_valores _ _ Hd).
  unfold Efeito.bind at 1. unfold Efeito.escreve at 1.
  unfold Efeito.bind at 1. unfold Efeito.le at 1. cbn [objetos].
  fold (tabela_coagida amb t). fold o1. unfold o1 at 1. rewrite lookup_insert_eq.
  unfold Efeito.bind at 1. unfold Efeito.aloca at 1. cbn [objetos]. fold copia.
  unfold Efeito.bind at 1. unfold Efeito.le at 1. cbn [objetos].
  rewrite lookup_insert_eq.
  unfold Efeito.bind at 1. unfold Efeito.lift at 1. rewrite (getitem_valores _ _ Hd').
  unfold Efeito.bind at 1. unfold Efeito.escreve at 1.
  unfold Efeito.bind at 1. unfold Efeito.le at 1. cbn [objetos].
  rewrite lookup_insert_eq. fold (copia_dos_graficos amb t).
  rewrite insert_insert_eq.
  set (o2 := <[copia := copia_dos_graficos amb t]> o1).
  assert (Hfinal : forall w2 : Mundo, objetos w2 = o2 -> pastas w2 = pastas w ->
            exists w', ((if Str.contem "receita" (columns (copia_dos_graficos amb t)) then
                   Efeito.grava (Str.path_join saida "grafico_receita.html")
                     (GraficoLinha (copia_dos_graficos amb t) "mês" "receita"
                        "Evolução da Receita Mensal")
                 else Efeito.ret tt) >>>
                (if Str.contem "despesa" (columns (copia_dos_graficos amb t)) then
                   Efeito.grava (Str.path_join saida "grafico_despesa.html")
                     (GraficoBarra (copia_dos_graficos amb t) "mês" "despesa"
                        "Custos Operacionais por Mês")
                 else Efeito.ret tt) >>>
                Efeito.print "[INFO] Gráficos interativos gerados com sucesso.")%efeito w2
              = (Ok tt, w') /\ objetos w' = o2 /\ pastas w' = pastas w).
  { intros w2 Ho Hp. unfold Efeito.bind, Efeito.grava, Efeito.ret, Efeito.print.
    destruct (Str.contem "receita" _), (Str.contem "despesa" _);
      eexists; (split; [reflexivity|]); by split. }
  edestruct Hfinal as (w' & -> & Ho & Hp); [reflexivity | reflexivity |].
  exists w', copia. split; [done|]. rewrite Ho. unfold o2, o1.
  split; [by rewrite lookup_insert_ne, lookup_insert_eq|].
  split; [done|]. split; [done|].
  split; [by rewrite lookup_insert_eq|].
  split; [|done].
  intros r Hr1 Hr2. by rewrite !lookup_insert_ne.
Qed.

Lemma print_anota s w : Efeito.print s w = (Ok tt, anota w [s]).
Proof. reflexivity. Qed.

Lemma carregar_dados_mundo amb d w :
  exists ls, forall w2,
    carregar_dados amb d w2 = ((carregar_dados amb d w).1, anota w2 ls).
Proof.
  destruct (listdir amb d) as [nomes|e] eqn:Hl.
  - rewrite (carregar_dados_spec amb d nomes w Hl).
    destruct (elegiveis nomes) as [|a resto] eqn:E.
    + exists []. intros w2. rewrite (carregar_dados_spec amb d nomes w2 Hl), E.
      by rewrite anota_nil.
    + exists (avisos amb d (a :: resto)). intros w2.
      rewrite (carregar_dados_spec amb d nomes w2 Hl), E.
      by destruct (carregados amb d (a :: resto)).
  - exists []. intros w2.
    unfold carregar_dados, Efeito.bind, Efeito.lift. rewrite Hl.
    by rewrite anota_nil.
Qed.

(** The caller's table after the charts: same labels, same number of rows;
    in each row the [data] cell is the coerced one and every other cell is
    as before. *)
Lemma tabela_coagida_linhas amb t :
  Str.contem "data" (columns t) = true ->
  columns (tabela_coagida amb t) = columns t /\
  length (linhas (tabela_coagida amb t)) = length (linhas t) /\
  forall i r, linhas t !! i = Some r ->
    exists r', linhas (tabela_coagida amb t) !! i = Some r' /\
      r' !! "data" = mjoin (coagir amb (valores t "data") !! i) /\
      forall c, c <> "data" -> r' !! c = r !! c.
Proof.
  intros Hd. split; [by apply setitem_columns_presente|].
  unfold tabela_coagida, Pandas.setitem. cbn [linhas].
  split; [apply atribuir_length|].
  intros i r Hr. rewrite atribuir_lookup, Hr. cbn [fmap option_fmap option_map].
  eexists. split; [reflexivity|].
  destruct (coagir amb (valores t "data") !! i) as [[v|]|]; cbn [mjoin option_join]; split.
  - apply lookup_insert_eq.
  - intros c Hc. by rewrite lookup_insert_ne.
  - apply lookup_delete_eq.
  - intros c Hc. by rewrite lookup_delete_ne.
  - apply lookup_delete_eq.
  - intros c Hc. by rewrite lookup_delete_ne.
Qed.

Lemma exportar_excel_grava m df saida w t :
  objetos w !! df = Some t ->
  exists w', exportar_excel m df saida w = (Ok tt, w') /\
    objetos w' = objetos w /\
    disco w' = <[Str.path_join saida "relatorio_administrativo.xlsx" := Planilha t m]> (disco w).
Proof.
  intros Ht. unfold exportar_excel, Efeito.bind, Efeito.le. rewrite Ht.
  eexists. split; [reflexivity|]. by split.
Qed.

Lemma exportar_pdf_grava m saida w :
  exists w' a, exportar_pdf m saida w = (Ok tt, w') /\
    objetos w' = objetos w /\
    disco w' = <[Str.path_join saida "relatorio_administrativo.pdf" := a]> (disco w).
Proof.
  unfold exportar_pdf, Efeito.bind. eexists _, _. split; [reflexivity|]. by split.
Qed.

Lemma fluxo_com_data amb input output w t m :
  (carregar_dados amb input w).1 = Ok t ->
  calcular_metricas t = Ok m ->
  Str.contem "data" (columns t) = true ->
  exists w', fluxo amb input output w = (Ok tt, w') /\
    disco w' !! Str.path_join output "relatorio_administrativo.xlsx"
      = Some (Planilha (tabela_coagida amb t) m).
Proof.
  intros Hc Hm Hd. destruct (carregar_dados_mundo amb input w) as (ls & Hind).
  unfold fluxo.
  unfold Efeito.bind at 1. rewrite print_anota.
  unfold Efeito.bind at 1. rewrite Hind, Hc.
  unfold Efeito.bind at 1. unfold Efeito.aloca at 1.
  set (df := fresh _).
  unfold Efeito.bind at 1. rewrite print_anota.
  unfold Efeito.bind at 1. unfold Efeito.le at 1. cbn [objetos anota].
  rewrite lookup_insert_eq.
  unfold Efeito.bind at 1. unfold Efeito.lift at 1. rewrite Hm.
  unfold Efeito.bind at 1. rewrite print_anota.
  unfold Efeito.bind at 1.
  edestruct (gerar_graficos_com_data amb df output) as (w1 & copia & -> & Hdf & _);
    [|exact Hd|].
  { cbn [objetos anota]. apply lookup_insert_eq. }
  unfold Efeito.bind at 1. rewrite print_anota.
  unfold Efeito.bind at 1.
  edestruct (exportar_excel_grava m df output
               (anota w1 ["[INFO] Exportando relatórios..."]) (tabela_coagida amb t))
    as (w2 & -> & Ho2 & Hd2); [exact Hdf|].
  unfold Efeito.bind at 1.
  edestruct (exportar_pdf_grava m output w2) as (w3 & a & -> & Ho3 & Hd3).
  rewrite print_anota. eexists. split; [reflexivity|].
  cbn [disco anota]. rewrite Hd3, Hd2.
  rewrite lookup_insert_ne by apply caminhos_distintos.
  apply lookup_insert_eq.
Qed.

(** C9.  When the table handed to [gerar_graficos] has a column labelled
    [data], the call rewrites that column of the very object the caller
    holds, every cell becoming the cell pandas parsed, a date or null; the
    labels, the number of rows and every cell of the other columns of that
    object stay as they were, and the month column goes to another object,
    the copy [dropna] made.  In [main] the spreadsheet is written after the
    charts, from the same object: its data sheet holds the coerced dates. *)
Theorem graficos_alteram_tabela_partilhada (amb : Ambiente) :
  (forall (df : nat) (saida : string) (w : Mundo) (t : DataFrame),
     objetos w !! df = Some t ->
     Str.contem "data" (columns t) = true ->
     exists w' copia,
       gerar_graficos amb df saida w = (Ok tt, w') /\
       objetos w' !! df = Some (tabela_coagida amb t) /\
       copia <> df /\ objetos w !! copia = None /\
       objetos w' !! copia = Some (copia_dos_graficos amb t) /\
       columns (tabela_coagida amb t) = columns t /\
       length (linhas (tabela_coagida amb t)) = length (linhas t) /\
       forall i r, linhas t !! i = Some r ->
         exists r', linhas (tabela_coagida amb t) !! i = Some r' /\
           r' !! "data" =
             Instante <$> mjoin (to_datetime amb (valores t "data") !! i) /\
           forall c, c <> "data" -> r' !! c = r !! c) /\
  (forall (input output : string) (w : Mundo) (t : DataFrame) (m : list (string * numero)),
     (carregar_dados amb input w).1 = Ok t ->
     calcular_metricas t = Ok m ->
     Str.contem "data" (columns t) = true ->
     exists w',
       main amb input output w = (Ok 0, w') /\
       disco w' !! Str.path_join output "relatorio_administrativo.xlsx"
         = Some (Planilha (tabela_coagida amb t) m)).
Proof.
  split.
  - intros df saida w t Ht Hd.
    destruct (gerar_graficos_com_data amb df saida w t Ht Hd)
      as (w' & copia & Hg & Hdf & Hne & Hnone & Hcopia & _).
    destruct (tabela_coagida_linhas amb t Hd) as (Hcols & Hlen & Hrows).
    exists w', copia. repeat (split; [done|]).
    intros i r Hr. destruct (Hrows i r Hr) as (r' & Hr' & Hdata & Hoth).
    exists r'. split; [done|]. split; [|done].
    rewrite Hdata. unfold coagir. rewrite list_lookup_fmap.
    by destruct (to_datetime amb (valores t "data") !! i) as [[z|]|].
  - intros input output w t m Hc Hm Hd.
    unfold main. unfold Efeito.bind at 1. unfold Efeito.makedirs at 1.
    set (w0 := {| stdout := stdout w; objetos := objetos w;
                  pastas := {[output]} ∪ pastas w; disco := disco w |}).
    assert (Hc0 : (carregar_dados amb input w0).1 = Ok t).
    { destruct (carregar_dados_mundo amb input w) as (ls & Hind).
      rewrite Hind. exact Hc. }
    destruct (fluxo_com_data amb input output w0 t m Hc0 Hm Hd) as (w' & Hf & Hx).
    unfold Efeito.tenta, Efeito.bind. rewrite Hf.
    exists w'. split; [reflexivity | exact Hx].
Qed.

Lemma graficos_alteram_tabela_partilhada_witness :
  exists w' t' m,
    main Exemplos.ambiente "datas" "saida" Exemplos.mundo0 = (Ok 0, w') /\
    disco w' !! "saida/relatorio_administrativo.xlsx" = Some (Planilha t' m) /\
    columns t' = ["data"; "receita"; "Origem_Arquivo"] /\
    valores t' "data" = [Some (Instante 1705276800); None; None] /\
    valores t' "receita" = [Some (Num 10); Some (Num 20); Some (Num 30)].
Proof.
  destruct (carregar_dados Exemplos.ambiente "datas" Exemplos.mundo0) as [r w1] eqn:E.
  destruct r as [t|e]; [|vm_compute in E; discriminate].
  destruct (proj2 (graficos_alteram_tabela_partilhada Exemplos.ambiente)
              "datas" "saida" Exemplos.mundo0 t
              [("Receita Total", Fin 60)]) as (w' & Hmain & Hx).
  - by rewrite E.
  - vm_compute in E. injection E as <- _. vm_compute. reflexivity.
  - vm_compute in E. injection E as <- _. vm_compute. reflexivity.
  - exists w', (tabela_coagida Exemplos.ambiente t), [("Receita Total", Fin 60)].
    split; [exact Hmain|]. split; [exact Hx|].
    vm_compute in E. injection E as <- _.
    repeat split; vm_compute; reflexivity.
Defined.

(* ================================================================== *)
(** ** More on the loader *)

Lemma elegiveis_idem nomes : elegiveis (elegiveis nomes) = elegiveis nomes.
Proof.
  unfold elegiveis. induction nomes as [|f nomes IH]; [done|].
  rewrite filter_cons. destruct (decide (extensao_reconhecida f = true)) as [E|E].
  - rewrite filter_cons, decide_True by done. by rewrite IH.
  - exact IH.
Qed.

Lemma carregados_avisos_length amb d arquivos :
  (length (carregados amb d arquivos) + length (avisos amb d arquivos))%nat
  = length arquivos.
Proof.
  unfold carregados, avisos. induction arquivos as [|a resto IH]; [done|].
  rewrite !bind_cons, !length_app. destruct (ler_arquivo amb d a); simpl; lia.
Qed.

(** X1.  Loading touches nothing but standard output: the objects, the
    folders and the disk are as before, and what is printed is one warning
    for each eligible file that does not parse, in listing order (the
    eligible files split into those loaded and those warned about).  When
    the listing itself raises, that exception comes out and nothing is
    printed. *)
Theorem carregar_dados_so_imprime (amb : Ambiente) (d : string) (w : Mundo) :
  objetos (carregar_dados amb d w).2 = objetos w /\
  pastas (carregar_dados amb d w).2 = pastas w /\
  disco (carregar_dados amb d w).2 = disco w /\
  (forall nomes, listdir amb d = Ok nomes ->
     stdout (carregar_dados amb d w).2
       = stdout w ++ avisos amb d (elegiveis nomes) /\
     (length (carregados amb d (elegiveis nomes))
      + length (avisos amb d (elegiveis nomes)))%nat = length (elegiveis nomes)) /\
  (forall e, listdir amb d = Raise e -> carregar_dados amb d w = (Raise e, w)).
Proof.
  assert (Hw : exists ls, (carregar_dados amb d w).2 = anota w ls).
  { destruct (carregar_dados_mundo amb d w) as (ls & Hind).
    exists ls. by rewrite (Hind w). }
  destruct Hw as (ls & Hw).
  split; [by rewrite Hw|]. split; [by rewrite Hw|]. split; [by rewrite Hw|].
  split.
  - intros nomes Hl. split; [|apply carregados_avisos_length].
    rewrite (carregar_dados_spec amb d nomes w Hl).
    destruct (elegiveis nomes) as [|a resto]; [by rewrite app_nil_r|].
    by destruct (carregados amb d (a :: resto)).
  - intros e Hl.
    unfold carregar_dados, Efeito.bind, Efeito.lift. by rewrite Hl.
Qed.

Lemma carregar_dados_so_imprime_witness :
  stdout (carregar_dados Exemplos.ambiente "misto" Exemplos.mundo0).2
    = ["[AVISO] Erro ao carregar quebrado.xlsx: File is not a zip file"] /\
  carregar_dados Exemplos.ambiente "ausente" Exemplos.mundo0
    = (Raise (FileNotFoundError "[Errno 2] No such file or directory"), Exemplos.mundo0).
Proof.
  destruct (carregar_dados_so_imprime Exemplos.ambiente "misto" Exemplos.mundo0)
    as (_ & _ & _ & Hok & _).
  destruct (carregar_dados_so_imprime Exemplos.ambiente "ausente" Exemplos.mundo0)
    as (_ & _ & _ & _ & Herr).
  split.
  - rewrite (proj1 (Hok ["a.csv"; "quebrado.xlsx"; "leiame.txt"; "b.csv"] eq_refl)).
    vm_compute. reflexivity.
  - apply Herr. vm_compute. reflexivity.
Defined.

(** X2.  Names without a recognized extension play no part: with the listing
    cut down to its eligible names the load gives the same result and prints
    the same lines. *)
Theorem carregar_dados_ignora_outros (amb : Ambiente) (d : string) (nomes : list string)
    (w : Mundo) :
  listdir amb d = Ok nomes ->
  carregar_dados (com_listagem amb (elegiveis nomes)) d w = carregar_dados amb d w.
Proof.
  intros Hl.
  rewrite (carregar_dados_spec amb d nomes w Hl).
  rewrite (carregar_dados_spec (com_listagem amb (elegiveis nomes)) d (elegiveis nomes) w eq_refl).
  rewrite elegiveis_idem. reflexivity.
Qed.

Lemma carregar_dados_ignora_outros_witness :
  carregar_dados (com_listagem Exemplos.ambiente ["a.csv"; "quebrado.xlsx"; "b.csv"])
    "misto" Exemplos.mundo0
  = carregar_dados Exemplos.ambiente "misto" Exemplos.mundo0.
Proof.
  exact (carregar_dados_ignora_outros Exemplos.ambiente "misto"
           ["a.csv"; "quebrado.xlsx"; "leiame.txt"; "b.csv"] Exemplos.mundo0 eq_refl).
Defined.

Lemma fold_uniao_prefix (dfs : list DataFrame) (acc : list string) :
  acc `prefix_of`
    fold_left (fun acc d => Pandas.uniao_rotulos acc (columns d)) dfs acc.
Proof.
  revert acc. induction dfs as [|t dfs IH]; intros acc; simpl; [done|].
  etrans; [|apply IH]. unfold Pandas.uniao_rotulos. by eexists.
Qed.

Lemma uniao_rotulos_NoDup (a b : list string) :
  NoDup a -> NoDup b -> NoDup (Pandas.uniao_rotulos a b).
Proof.
  intros Ha Hb. unfold Pandas.uniao_rotulos. apply NoDup_app.
  split; [done|]. split; [|by apply NoDup_filter].
  intros x Hx Hf. apply list_elem_of_filter in Hf as [Hf _].
  apply contem_elem_of in Hx. congruence.
Qed.

Lemma fold_uniao_NoDup (dfs : list DataFrame) (acc : list string) :
  NoDup acc -> Forall (fun t => NoDup (columns t)) dfs ->
  NoDup (fold_left (fun acc d => Pandas.uniao_rotulos acc (columns d)) dfs acc).
Proof.
  revert acc. induction dfs as [|t dfs IH]; intros acc Ha Hd; simpl; [done|].
  inversion Hd; subst. apply IH; [by apply uniao_rotulos_NoDup | done].
Qed.

Lemma uniao_rotulos_nil (b : list string) : Pandas.uniao_rotulos [] b = b.
Proof.
  unfold Pandas.uniao_rotulos. simpl.
  induction b as [|x b IH]; [done|].
  rewrite filter_cons, decide_True by done. by rewrite IH.
Qed.

Lemma concat_columns (dfs : list DataFrame) (df : DataFrame) :
  Pandas.concat dfs = Ok df ->
  columns df = fold_left (fun acc d => Pandas.uniao_rotulos acc (columns d)) dfs [].
Proof. destruct dfs; [done|]. by intros [= <-]. Qed.

(** X3.  The labels of the consolidated table are the labels of the loaded
    tables and no others; they start with the labels of the first loaded
    table in its order, and no label is repeated when no loaded table
    repeats one. *)
Theorem colunas_consolidadas (amb : Ambiente) (d : string) (w w' : Mundo) (df : DataFrame) :
  carregar_dados amb d w = (Ok df, w') ->
  exists nomes, listdir amb d = Ok nomes /\
    (forall c, c ∈ columns df <->
       exists t, t ∈ carregados amb d (elegiveis nomes) /\ c ∈ columns t) /\
    (exists t resto, carregados amb d (elegiveis nomes) = t :: resto /\
       columns t `prefix_of` columns df) /\
    (Forall (fun t => NoDup (columns t)) (carregados amb d (elegiveis nomes)) ->
     NoDup (columns df)).
Proof.
  intros H. apply carregar_dados_Ok in H as (nomes & Hl & Hne & Hc & _).
  exists nomes. split; [done|].
  destruct (concat_Ok _ Hne) as (df' & Hc' & _ & Hcols).
  assert (df' = df) by congruence. subst df'.
  split; [|split].
  - intros c. rewrite <- contem_elem_of, Hcols, existsb_exists. split.
    + intros (t & Ht & Hct). exists t. split; [by apply list_elem_of_In|].
      by apply contem_elem_of.
    + intros (t & Ht & Hct). exists t. split; [by apply list_elem_of_In|].
      by apply contem_elem_of.
  - destruct (carregados amb d (elegiveis nomes)) as [|t resto] eqn:C; [done|].
    exists t, resto. split; [done|].
    rewrite (concat_columns _ _ Hc). cbn [fold_left].
    rewrite uniao_rotulos_nil. apply fold_uniao_prefix.
  - intros Hnd. rewrite (concat_columns _ _ Hc).
    apply fold_uniao_NoDup; [constructor | done].
Qed.

Lemma colunas_consolidadas_witness :
  exists df, (carregar_dados Exemplos.ambiente "misto" Exemplos.mundo0).1 = Ok df /\
    NoDup (columns df) /\ "despesa" ∈ columns df.
Proof.
  destruct (carregar_dados Exemplos.ambiente "misto" Exemplos.mundo0) as [r w'] eqn:E.
  destruct r as [df|e]; [|vm_compute in E; discriminate].
  destruct (colunas_consolidadas _ _ _ _ _ E) as (nomes & Hl & Hin & _ & Hnd).
  exists df. split; [reflexivity|].
  vm_compute in Hl. injection Hl as <-. split.
  - apply Hnd. vm_compute. apply Forall_forall. intros t Ht.
    repeat (apply elem_of_cons in Ht as [->|Ht]);
      [| |by apply elem_of_nil in Ht]; apply (bool_decide_unpack _); vm_compute; exact I.
  - apply Hin. exists (Pandas.setitem_escalar Exemplos.a_csv "Origem_Arquivo" (Texto "a.csv")).
    split; [vm_compute; left | apply (bool_decide_unpack _); vm_compute; exact I].
Defined.

(** X4.  Tagging a parsed table changes the provenance column and nothing
    else: when the file already has a column of that label it keeps its
    place and its values are replaced, otherwise the label is added last;
    the number of rows and every other cell are as parsed. *)
Theorem ler_arquivo_so_origem (amb : Ambiente) (d a : string) (t : DataFrame) :
  ler_arquivo amb d a = Ok t ->
  exists t0, leitura amb d a = Ok t0 /\
    columns t = (if Str.contem "Origem_Arquivo" (columns t0) then columns t0
                 else columns t0 ++ ["Origem_Arquivo"]) /\
    length (linhas t) = length (linhas t0) /\
    forall i r0, linhas t0 !! i = Some r0 ->
      exists r, linhas t !! i = Some r /\
        r !! "Origem_Arquivo" = Some (Texto a) /\
        forall c, c <> "Origem_Arquivo" -> r !! c = r0 !! c.
Proof.
  intros (t0 & Ht0 & ->)%ler_arquivo_Ok. exists t0. split; [done|].
  unfold Pandas.setitem_escalar. cbn [columns linhas].
  split; [done|]. split; [apply length_fmap|].
  intros i r0 Hr. rewrite list_lookup_fmap, Hr. eexists. split; [reflexivity|].
  split; [apply lookup_insert_eq|]. intros c Hc. by rewrite lookup_insert_ne.
Qed.

Lemma ler_arquivo_so_origem_witness :
  exists t0, leitura Exemplos.ambiente "relatorios" "a.csv" = Ok t0 /\
    columns t0 = ["receita"; "despesa"].
Proof.
  destruct (ler_arquivo_so_origem Exemplos.ambiente "relatorios" "a.csv"
              (Pandas.setitem_escalar Exemplos.a_csv "Origem_Arquivo" (Texto "a.csv")))
    as (t0 & Ht0 & _).
  - vm_compute. reflexivity.
  - exists t0. split; [exact Ht0|].
    vm_compute in Ht0. injection Ht0 as <-. reflexivity.
Defined.

(* ================================================================== *)
(** ** More on the metrics engine *)

Ltac no_vocabulario := apply (bool_decide_unpack _); vm_compute; exact I.

(** What [calcular_metricas] looks at: the lowered index, the two sums taken
    through it and the four columns read under their own labels. *)
Lemma calcular_metricas_cong df df' :
  (forall tok, tok ∈ vocabulario -> tem tok df' = tem tok df) ->
  (forall tok, tok ∈ ["receita"; "despesa"] -> tem tok df = true ->
     soma_coluna_ci df' tok = soma_coluna_ci df tok) ->
  (forall c, c ∈ ["producao"; "funcionario"; "vendas"; "quantidade"] ->
     Pandas.getitem df' c = Pandas.getitem df c) ->
  calcular_metricas df' = calcular_metricas df.
Proof.
  intros Ht Hs Hg.
  unfold calcular_metricas, regra_receita, regra_despesa, regra_produtividade,
    regra_lucro, regra_ticket, soma_coluna. cbv zeta.
  repeat match goal with
         | |- context [Str.contem ?t (colunas_lower ?d)] =>
             change (Str.contem t (colunas_lower d)) with (tem t d)
         end.
  rewrite (Ht "receita"), (Ht "despesa"), (Ht "funcionario"), (Ht "producao"),
    (Ht "vendas"), (Ht "quantidade") by no_vocabulario.
  rewrite (Hg "producao"), (Hg "funcionario"), (Hg "vendas"), (Hg "quantidade")
    by no_vocabulario.
  destruct (tem "receita" df) eqn:Tr.
  - rewrite (Hs "receita") by (no_vocabulario || done).
    destruct (tem "despesa" df) eqn:Td; [|done].
    by rewrite (Hs "despesa") by (no_vocabulario || done).
  - destruct (tem "despesa" df) eqn:Td; [|done].
    by rewrite (Hs "despesa") by (no_vocabulario || done).
Qed.

Lemma find_app_false {A} (f : A -> bool) (l : list A) (x : A) :
  f x = false -> List.find f (l ++ [x]) = List.find f l.
Proof.
  intros Hx. induction l as [|y l IH]; simpl; [by rewrite Hx|].
  by destruct (f y).
Qed.

Lemma fora_do_vocabulario c tok :
  Str.contem (Str.lower c) vocabulario = false -> tok ∈ vocabulario ->
  String.eqb tok (Str.lower c) = false.
Proof.
  intros Hc Ht. destruct (String.eqb tok (Str.lower c)) eqn:E; [|done].
  apply String.eqb_eq in E. subst tok.
  apply contem_elem_of in Ht. congruence.
Qed.

(** A table edited at one label whose lower-case form is no vocabulary token
    (the label kept in place or added last, every other column as before)
    has the same metrics. *)
Lemma calcular_metricas_edicao df df' c :
  Str.contem (Str.lower c) vocabulario = false ->
  columns df' = (if Str.contem c (columns df) then columns df else columns df ++ [c]) ->
  (forall l, l <> c -> valores df' l = valores df l) ->
  calcular_metricas df' = calcular_metricas df.
Proof.
  intros Hc Hcols Hval.
  assert (Hne : forall l, Str.contem (Str.lower l) vocabulario = true -> l <> c).
  { intros l Hl ->. congruence. }
  assert (Hcont : forall l, l <> c ->
            Str.contem l (columns df') = Str.contem l (columns df)).
  { intros l Hl. rewrite Hcols. destruct (Str.contem c (columns df)); [done|].
    rewrite contem_app. simpl. apply String.eqb_neq in Hl. rewrite Hl.
    by rewrite !orb_false_r. }
  assert (Hrot : forall tok, tok ∈ vocabulario -> rotulo_ci df' tok = rotulo_ci df tok).
  { intros tok Htok. unfold rotulo_ci. rewrite Hcols.
    destruct (Str.contem c (columns df)); [done|].
    apply find_app_false. rewrite String.eqb_sym. by apply fora_do_vocabulario. }
  apply calcular_metricas_cong.
  - intros tok Htok. by rewrite !tem_rotulo_ci_bool, Hrot.
  - intros tok Htok Ht.
    assert (Hv : tok ∈ vocabulario).
    { repeat (apply elem_of_cons in Htok as [->|Htok]); [no_vocabulario..|].
      by apply elem_of_nil in Htok. }
    apply tem_rotulo_ci in Ht as [l Hl].
    rewrite (soma_coluna_ci_rotulo df tok l Hl).
    rewrite (soma_coluna_ci_rotulo df' tok l) by by rewrite Hrot.
    rewrite Hval; [done|]. apply Hne.
    apply rotulo_ci_Some in Hl as [_ ->]. by apply contem_elem_of.
  - intros l Hl.
    assert (Hl' : l <> c).
    { apply Hne.
      repeat (apply elem_of_cons in Hl as [->|Hl]); [reflexivity..|].
      by apply elem_of_nil in Hl. }
    unfold Pandas.getitem. rewrite (Hcont l Hl').
    fold (valores df' l) (valores df l). by rewrite Hval.
Qed.

Lemma valores_setitem_escalar df c v l :
  l <> c -> valores (Pandas.setitem_escalar df c v) l = valores df l.
Proof.
  intros Hl. unfold valores, Pandas.setitem_escalar. cbn [linhas].
  rewrite <- list_fmap_compose. apply list_fmap_ext. intros i r _. simpl.
  by rewrite lookup_insert_ne.
Qed.

Lemma valores_setitem df c s l :
  l <> c -> valores (Pandas.setitem df c s) l = valores df l.
Proof.
  intros Hl. unfold valores, Pandas.setitem. cbn [linhas].
  apply list_eq. intros i. rewrite !list_lookup_fmap, atribuir_lookup.
  destruct (linhas df !! i) as [r|]; [|done]. simpl. f_equal.
  destruct (s !! i) as [[v|]|]; by rewrite ?lookup_insert_ne, ?lookup_delete_ne.
Qed.

(** X5.  Writing a column whose label, in lower case, is no vocabulary token
    does not change what [calcular_metricas] gives: the provenance tag of the
    loader leaves the metrics (or the exception) of a table as they were. *)
Theorem metricas_ignoram_etiqueta (df : DataFrame) (c : string) (v : valor) :
  Str.contem (Str.lower c) vocabulario = false ->
  calcular_metricas (Pandas.setitem_escalar df c v) = calcular_metricas df.
Proof.
  intros Hc. apply (calcular_metricas_edicao df _ c Hc); [done|].
  intros l Hl. by apply valores_setitem_escalar.
Qed.

Lemma metricas_ignoram_etiqueta_witness :
  calcular_metricas
    (Pandas.setitem_escalar Exemplos.tabela_financeira "Origem_Arquivo" (Texto "f.csv"))
  = calcular_metricas Exemplos.tabela_financeira.
Proof.
  exact (metricas_ignoram_etiqueta Exemplos.tabela_financeira "Origem_Arquivo"
           (Texto "f.csv") eq_refl).
Defined.

(** X6.  The metrics do not depend on the date coercion of the chart
    exporter: computed on the caller's table after [gerar_graficos] they are
    the ones computed before it, whatever the date parser answers. *)
Theorem metricas_ignoram_coercao (amb : Ambiente) (t : DataFrame) :
  calcular_metricas (tabela_coagida amb t) = calcular_metricas t /\
  calcular_metricas (tabela_exportada amb t) = calcular_metricas t.
Proof.
  assert (H : calcular_metricas (tabela_coagida amb t) = calcular_metricas t).
  { apply (calcular_metricas_edicao t _ "data"); [reflexivity | done |].
    intros l Hl. by apply valores_setitem. }
  split; [exact H|]. unfold tabela_exportada.
  by destruct (Str.contem "data" (columns t)).
Qed.

Lemma find_fmap {A B} (f : B -> bool) (g : A -> B) (l : list A) :
  List.find f (g <$> l) = g <$> List.find (fun x => f (g x)) l.
Proof.
  induction l as [|x l IH]; [done|]. cbn [fmap list_fmap List.find].
  destruct (f (g x)); [done | exact IH].
Qed.

Lemma find_pontual {A} (f g : A -> bool) (l : list A) :
  (forall x, f x = g x) -> List.find f l = List.find g l.
Proof.
  intros H. induction l as [|x l IH]; [done|]. simpl. rewrite H, IH. done.
Qed.

Lemma linha_renomeada (c c' : string) (r : gmap string valor) :
  r !! c' = None ->
  let r' := match r !! c with
            | Some v => <[c' := v]> (delete c r)
            | None => r
            end in
  r' !! c' = r !! c /\ forall l, l <> c -> l <> c' -> r' !! l = r !! l.
Proof.
  intros Hc'. cbv zeta. destruct (r !! c) as [v|] eqn:E; split.
  - apply lookup_insert_eq.
  - intros l H1 H2. by rewrite lookup_insert_ne, lookup_delete_ne.
  - done.
  - done.
Qed.

(** X7.  The first two rules are indifferent to the casing of their column:
    renaming the receita (or despesa) column to another spelling of the same
    letters, not yet a label of the table, leaves the result of
    [calcular_metricas] as it was. *)
Theorem receita_despesa_sem_caixa (df : DataFrame) (c c' tok : string) :
  tok = "receita" \/ tok = "despesa" ->
  Str.lower c = tok -> Str.lower c' = tok ->
  Str.contem c' (columns df) = false ->
  (forall r, r ∈ linhas df -> r !! c' = None) ->
  calcular_metricas (renomear c c' df) = calcular_metricas df.
Proof.
  intros Htok Hc Hc' Hfresh Hrows.
  set (ren := fun x : string => if String.eqb x c then c' else x).
  assert (Hlow : forall x, Str.lower (ren x) = Str.lower x).
  { intros x. unfold ren. destruct (String.eqb x c) eqn:E; [|done].
    apply String.eqb_eq in E. congruence. }
  assert (Hcols : colunas_lower (renomear c c' df) = colunas_lower df).
  { unfold colunas_lower, renomear. cbn [columns]. rewrite <- list_fmap_compose.
    apply list_fmap_ext. intros i x _. apply Hlow. }
  assert (Hval_c : valores (renomear c c' df) c' = valores df c).
  { unfold valores, renomear. cbn [linhas]. rewrite <- list_fmap_compose.
    apply list_fmap_ext. intros i r Hr. simpl.
    apply (linha_renomeada c c' r). apply Hrows. by eapply list_elem_of_lookup_2. }
  assert (Hval : forall l, l <> c -> l <> c' ->
            valores (renomear c c' df) l = valores df l).
  { intros l H1 H2. unfold valores, renomear. cbn [linhas].
    rewrite <- list_fmap_compose. apply list_fmap_ext. intros i r Hr. simpl.
    apply (linha_renomeada c c' r); [|done..].
    apply Hrows. by eapply list_elem_of_lookup_2. }
  assert (Hlit : forall l, l ∈ ["producao"; "funcionario"; "vendas"; "quantidade"] ->
            l <> c /\ l <> c').
  { intros l Hl.
    assert (Hll : Str.lower l = l /\ l <> tok).
    { destruct Htok as [-> | ->];
        repeat (apply elem_of_cons in Hl as [->|Hl]); try done;
        by apply elem_of_nil in Hl. }
    destruct Hll as [Hll Hne]. split; intros ->; congruence. }
  apply calcular_metricas_cong.
  - intros t _. unfold tem. by rewrite Hcols.
  - intros t _ Ht.
    apply tem_rotulo_ci in Ht as [l Hl].
    assert (Hl' : rotulo_ci (renomear c c' df) t = Some (ren l)).
    { unfold rotulo_ci, renomear. cbn [columns]. fold ren.
      rewrite find_fmap.
      rewrite (find_pontual _ (fun x => String.eqb (Str.lower x) t)).
      - fold (rotulo_ci df t). by rewrite Hl.
      - intros x. by rewrite Hlow. }
    rewrite (soma_coluna_ci_rotulo _ _ _ Hl), (soma_coluna_ci_rotulo _ _ _ Hl').
    f_equal. unfold ren. destruct (String.eqb l c) eqn:E.
    + apply String.eqb_eq in E. by subst l.
    + apply String.eqb_neq in E. apply Hval; [done|].
      intros ->. apply rotulo_ci_Some in Hl as [Hin _].
      apply contem_elem_of in Hin. congruence.
  - intros l Hl. destruct (Hlit l Hl) as [H1 H2].
    unfold Pandas.getitem.
    assert (Hcont : Str.contem l (columns (renomear c c' df)) = Str.contem l (columns df)).
    { unfold renomear. cbn [columns]. fold ren.
      destruct (Str.contem l (columns df)) eqn:E.
      - apply contem_elem_of. apply contem_elem_of in E.
        apply list_elem_of_fmap. exists l. split; [|done].
        unfold ren. apply String.eqb_neq in H1. by rewrite H1.
      - destruct (Str.contem l (ren <$> columns df)) eqn:E'; [|done].
        apply contem_elem_of, list_elem_of_fmap in E' as (x & Hx & Hin).
        unfold ren in Hx. destruct (String.eqb x c); [done|]. subst x.
        apply contem_elem_of in Hin. congruence. }
    rewrite Hcont. fold (valores (renomear c c' df) l) (valores df l).
    by rewrite Hval.
Qed.

Lemma receita_despesa_sem_caixa_witness :
  calcular_metricas (renomear "Receita" "RECEITA" Exemplos.tabela_financeira)
  = calcular_metricas Exemplos.tabela_financeira.
Proof.
  apply (receita_despesa_sem_caixa Exemplos.tabela_financeira "Receita" "RECEITA" "receita").
  - by left.
  - reflexivity.
  - reflexivity.
  - reflexivity.
  - apply Forall_forall. unfold Exemplos.tabela_financeira. cbn [linhas].
    repeat (constructor; [vm_compute; reflexivity|]).
    constructor.
Defined.

Lemma forallb_lookup_false {A} (f : A -> bool) (l : list A) (i : nat) (x : A) :
  l !! i = Some x -> f x = false -> forallb f l = false.
Proof.
  revert i. induction l as [|a l IH]; intros [|i]; simpl; try done.
  - by intros [= ->] ->.
  - intros H Hf. rewrite (IH _ H Hf). apply andb_false_r.
Qed.

(** X8.  A column that holds a number in one row and a text in another
    cannot be summed.  When that column is the one matched for receita, or,
    the receita column being fine, the one matched for despesa, the call ends
    in [TypeError]: no mapping is returned, whatever the other columns
    hold. *)
Theorem soma_nao_numerica_TypeError (df : DataFrame) (c : string) (i j : nat)
    (q : Q) (s : string) :
  valores df c !! i = Some (Some (Num q)) ->
  valores df c !! j = Some (Some (Texto s)) ->
  (rotulo_ci df "receita" = Some c -> calcular_metricas df = Raise TypeError) /\
  (clausula_ci df "receita" = true -> rotulo_ci df "despesa" = Some c ->
   calcular_metricas df = Raise TypeError).
Proof.
  intros _ Ht.
  assert (Hc : coluna_numerica df c = false)
    by (eapply forallb_lookup_false; [exact Ht | done]).
  split.
  - intros Hr.
    assert (T : tem "receita" df = true) by (apply tem_rotulo_ci; eauto).
    assert (H : clausula_ci df "receita" = false)
      by (unfold clausula_ci; by rewrite Hr).
    unfold calcular_metricas, regra_receita. cbv zeta.
    fold (tem "receita" df). rewrite T. by rewrite (soma_coluna_ci_raise _ _ T H).
  - intros H1 Hr.
    assert (T : tem "despesa" df = true) by (apply tem_rotulo_ci; eauto).
    assert (H : clausula_ci df "despesa" = false)
      by (unfold clausula_ci; by rewrite Hr).
    unfold calcular_metricas. cbv zeta.
    rewrite (regra_receita_ok _ _ H1). cbn [mbind resultado_bind bind_r].
    unfold regra_despesa. fold (tem "despesa" df). rewrite T.
    by rewrite (soma_coluna_ci_raise _ _ T H).
Qed.

Lemma soma_nao_numerica_TypeError_witness :
  calcular_metricas Exemplos.tabela_mista = Raise TypeError /\
  calcular_metricas Casos.tabela_receita_mista_despesa = Raise TypeError.
Proof.
  split.
  - apply (proj1 (soma_nao_numerica_TypeError Exemplos.tabela_mista "receita"
                    0%nat 1%nat 100 "abc" eq_refl eq_refl)).
    reflexivity.
  - apply (proj2 (soma_nao_numerica_TypeError Casos.tabela_receita_mista_despesa
                    "Despesa" 1%nat 0%nat 5 "n/d" eq_refl eq_refl)).
    + reflexivity.
    + reflexivity.
Defined.

(** X9.  When the sums of receita and despesa raise nothing and rule 3 fires
    (funcionario and producao are found in the lowered index), a table
    without the label [producao] itself ends the call in
    [KeyError('producao')]; with that label over numbers and nulls but
    without the label [funcionario] itself, in [KeyError('funcionario')]. *)
Theorem regra_produtividade_KeyError (df : DataFrame) :
  clausula_ci df "receita" = true -> clausula_ci df "despesa" = true ->
  tem "funcionario" df = true -> tem "producao" df = true ->
  (Str.contem "producao" (columns df) = false ->
   calcular_metricas df = Raise (KeyError "producao")) /\
  (Str.contem "producao" (columns df) = true ->
   coluna_numerica df "producao" = true ->
   Str.contem "funcionario" (columns df) = false ->
   calcular_metricas df = Raise (KeyError "funcionario")).
Proof.
  intros H1 H2 Tf Tp.
  assert (E : calcular_metricas df =
            (m ← regra_produtividade df (colunas_lower df)
                   (if tem "despesa" df
                    then Dict.set "Custo Operacional Total" (soma_ci df "despesa")
                           (if tem "receita" df
                            then Dict.set "Receita Total" (soma_ci df "receita") []
                            else [])
                    else if tem "receita" df
                         then Dict.set "Receita Total" (soma_ci df "receita") []
                         else []);
             m ← regra_lucro (colunas_lower df) m;
             m ← regra_ticket df (colunas_lower df) m;
             Ok m)).
  { unfold calcular_metricas. cbv zeta.
    rewrite (regra_receita_ok _ _ H1). cbn [mbind resultado_bind bind_r].
    by rewrite (regra_despesa_ok _ _ H2). }
  rewrite E. unfold regra_produtividade.
  fold (tem "funcionario" df) (tem "producao" df). rewrite Tf, Tp. cbn [andb].
  rewrite soma_coluna_literal. split.
  - intros Hp. by rewrite Hp.
  - intros Hp Hn Hf. rewrite Hp, (sum_numerica _ _ Hn).
    cbn [mbind resultado_bind bind_r]. by rewrite (getitem_KeyError _ _ Hf).
Qed.

Lemma regra_produtividade_KeyError_witness :
  calcular_metricas Exemplos.tabela_maiusculas = Raise (KeyError "producao").
Proof.
  apply (proj1 (regra_produtividade_KeyError Exemplos.tabela_maiusculas
                  eq_refl eq_refl eq_refl eq_refl)).
  reflexivity.
Defined.

Lemma regra_lucro_Ok df m :
  exists m',
    regra_lucro (colunas_lower df)
      (if tem "funcionario" df && tem "producao" df
       then Dict.set "Produtividade Média" m
              (if tem "despesa" df
               then Dict.set "Custo Operacional Total" (soma_ci df "despesa")
                      (if tem "receita" df
                       then Dict.set "Receita Total" (soma_ci df "receita") []
                       else [])
               else if tem "receita" df
                    then Dict.set "Receita Total" (soma_ci df "receita") []
                    else [])
       else if tem "despesa" df
            then Dict.set "Custo Operacional Total" (soma_ci df "despesa")
                   (if tem "receita" df
                    then Dict.set "Receita Total" (soma_ci df "receita") []
                    else [])
            else if tem "receita" df
                 then Dict.set "Receita Total" (soma_ci df "receita") []
                 else []) = Ok m'.
Proof.
  unfold regra_lucro. fold (tem "receita" df) (tem "despesa" df).
  destruct (tem "receita" df), (tem "despesa" df),
    (tem "funcionario" df && tem "producao" df);
    cbn -[soma_ci]; eauto.
Qed.

(** X10.  When the first three rules raise nothing, rule 3 dividing, if it
    fires, by a nonzero number of employees, and rule 5 fires (vendas and
    quantidade are found in the lowered index), a table without the label
    [vendas] itself ends the call in [KeyError('vendas')]; with that label
    over numbers and nulls but without the label [quantidade] itself, in
    [KeyError('quantidade')].  The entries already computed are lost with
    the rest. *)
Theorem regra_ticket_KeyError (df : DataFrame) :
  clausula_ci df "receita" = true -> clausula_ci df "despesa" = true ->
  clausula_produtividade df = true ->
  (tem "funcionario" df && tem "producao" df = true ->
   Pandas.nunique (valores df "funcionario") <> 0%nat) ->
  tem "vendas" df = true -> tem "quantidade" df = true ->
  (Str.contem "vendas" (columns df) = false ->
   calcular_metricas df = Raise (KeyError "vendas")) /\
  (Str.contem "vendas" (columns df) = true ->
   coluna_numerica df "vendas" = true ->
   Str.contem "quantidade" (columns df) = false ->
   calcular_metricas df = Raise (KeyError "quantidade")).
Proof.
  intros H1 H2 H3 _ Tv Tq.
  assert (E : exists m, calcular_metricas df =
                (m ← regra_ticket df (colunas_lower df) m; Ok m)).
  { unfold calcular_metricas. cbv zeta.
    rewrite (regra_receita_ok _ _ H1). cbn [mbind resultado_bind bind_r].
    rewrite (regra_despesa_ok _ _ H2). cbn [mbind resultado_bind bind_r].
    rewrite (regra_produtividade_ok _ _ H3). cbn [mbind resultado_bind bind_r].
    destruct (regra_lucro_Ok df
                (n_div (soma_de df "producao")
                   (n_of_nat (Pandas.nunique (valores df "funcionario")))))
      as [m' ->].
    exists m'. reflexivity. }
  destruct E as [m ->]. unfold regra_ticket.
  fold (tem "vendas" df) (tem "quantidade" df). rewrite Tv, Tq. cbn [andb].
  rewrite !soma_coluna_literal. split.
  - intros Hv. by rewrite Hv.
  - intros Hv Hn Hq. rewrite Hv, Hq, (sum_numerica _ _ Hn). reflexivity.
Qed.

Lemma regra_ticket_KeyError_witness :
  calcular_metricas Casos.tabela_vendas_maiusculas = Raise (KeyError "vendas") /\
  calcular_metricas Casos.tabela_equipe_vendas = Raise (KeyError "quantidade").
Proof.
  split.
  - destruct (regra_ticket_KeyError Casos.tabela_vendas_maiusculas) as [K _];
      [reflexivity | reflexivity | reflexivity
      | intros H; vm_compute in H; discriminate H
      | reflexivity | reflexivity |].
    apply K. reflexivity.
  - destruct (regra_ticket_KeyError Casos.tabela_equipe_vendas) as [_ K];
      [reflexivity | reflexivity | reflexivity
      | intros _; vm_compute; discriminate
      | reflexivity | reflexivity |].
    apply K; reflexivity.
Defined.

Lemma regra_produtividade_excecao df m e :
  regra_produtividade df (colunas_lower df) m = Raise e ->
  e = TypeError \/ e = KeyError "producao" \/ e = KeyError "funcionario".
Proof.
  unfold regra_produtividade. fold (tem "funcionario" df) (tem "producao" df).
  destruct (tem "funcionario" df && tem "producao" df); [|done].
  rewrite soma_coluna_literal. unfold Pandas.getitem, Pandas.sum.
  destruct (Str.contem "producao" (columns df)); [|intros [= <-]; auto].
  destruct (forallb Pandas.e_numero (valores df "producao")); [|intros [= <-]; auto].
  cbn [mbind resultado_bind bind_r].
  destruct (Str.contem "funcionario" (columns df)); [done | intros [= <-]; auto].
Qed.

Lemma regra_ticket_excecao df m e :
  regra_ticket df (colunas_lower df) m = Raise e ->
  e = TypeError \/ e = KeyError "vendas" \/ e = KeyError "quantidade".
Proof.
  unfold regra_ticket. fold (tem "vendas" df) (tem "quantidade" df).
  destruct (tem "vendas" df && tem "quantidade" df); [|done].
  rewrite !soma_coluna_literal. unfold Pandas.sum.
  destruct (Str.contem "vendas" (columns df)); [|intros [= <-]; auto].
  destruct (forallb Pandas.e_numero (valores df "vendas")); [|intros [= <-]; auto].
  cbn [mbind resultado_bind bind_r].
  destruct (Str.contem "quantidade" (columns df)); [|intros [= <-]; auto].
  destruct (forallb Pandas.e_numero (valores df "quantidade")); [done | intros [= <-]; auto].
Qed.

Lemma calcular_metricas_excecoes df e :
  calcular_metricas df = Raise e ->
  e = TypeError \/
  exists c, c ∈ ["producao"; "funcionario"; "vendas"; "quantidade"] /\ e = KeyError c.
Proof.
  unfold calcular_metricas. cbv zeta.
  destruct (clausula_ci df "receita") eqn:H1.
  2:{ unfold regra_receita. fold (tem "receita" df).
      destruct (tem "receita" df) eqn:T.
      - rewrite (soma_coluna_ci_raise _ _ T H1). intros [= <-]. by left.
      - by rewrite (clausula_ci_sem_coluna _ _ T) in H1. }
  rewrite (regra_receita_ok _ _ H1). cbn [mbind resultado_bind bind_r].
  destruct (clausula_ci df "despesa") eqn:H2.
  2:{ unfold regra_despesa. fold (tem "despesa" df).
      destruct (tem "despesa" df) eqn:T.
      - rewrite (soma_coluna_ci_raise _ _ T H2). intros [= <-]. by left.
      - by rewrite (clausula_ci_sem_coluna _ _ T) in H2. }
  rewrite (regra_despesa_ok _ _ H2). cbn [mbind resultado_bind bind_r].
  destruct (clausula_produtividade df) eqn:H3.
  2:{ edestruct regra_produtividade_raise as [e' He']; [done|].
      rewrite He'. intros [= <-].
      apply regra_produtividade_excecao in He' as [->|[->| ->]];
        [by left | right; eexists; split; [|done]; set_solver..]. }
  rewrite (regra_produtividade_ok _ _ H3).
  cbn [mbind resultado_bind bind_r].
  destruct (regra_lucro_Ok df
              (n_div (soma_de df "producao")
                 (n_of_nat (Pandas.nunique (valores df "funcionario")))))
    as [m' ->].
  cbn [mbind resultado_bind bind_r].
  destruct (regra_ticket df (colunas_lower df) m') as [m5|e5] eqn:E5; [done|].
  intros [= <-]. apply regra_ticket_excecao in E5 as [->|[->| ->]];
    [by left | right; eexists; split; [|done]; set_solver..].
Qed.

(** X11.  What [calcular_metricas] never raises: the [[0]] of the label
    lookup never ends in [IndexError], the reads of [Receita Total] and
    [Custo Operacional Total] for the profit never end in [KeyError]; a
    [KeyError] of the call names one of the four columns read under their
    lower-case labels. *)
Theorem calcular_metricas_nunca (df : DataFrame) (e : excecao) :
  calcular_metricas df = Raise e ->
  e <> IndexError /\
  e <> KeyError "Receita Total" /\ e <> KeyError "Custo Operacional Total" /\
  (forall k, e = KeyError k ->
     k ∈ ["producao"; "funcionario"; "vendas"; "quantidade"]).
Proof.
  intros [-> | (c & Hc & ->)]%calcular_metricas_excecoes.
  - repeat split; done.
  - assert (Hne : c <> "Receita Total" /\ c <> "Custo Operacional Total").
    { repeat (apply elem_of_cons in Hc as [->|Hc]); try done.
      by apply elem_of_nil in Hc. }
    destruct Hne as [N1 N2].
    split; [done|]. split; [congruence|]. split; [congruence|].
    by intros k [= <-].
Qed.

Lemma calcular_metricas_nunca_witness :
  "producao" ∈ ["producao"; "funcionario"; "vendas"; "quantidade"].
Proof.
  exact (proj2 (proj2 (proj2 (calcular_metricas_nunca Exemplos.tabela_maiusculas
                                (KeyError "producao") eq_refl))) "producao" eq_refl).
Defined.

(** X21.  A well-formed table gets a mapping, and whatever mapping the engine
    returns for a table on which rule 3 fired was computed from the columns
    labelled [producao] and [funcionario] themselves: it holds
    [Produtividade Média], the sum of the producao values divided by the
    number of distinct funcionario values; with a nonzero number of distinct
    values this is their quotient as a finite number.  For
    funcionario = [1,1,2] and producao = [10,20,30] the mapping holds 30. *)
Theorem produtividade_media_regra :
  (forall df : DataFrame, regular df = true -> exists m, calcular_metricas df = Ok m) /\
  (forall (df : DataFrame) (m : list (string * numero)),
     calcular_metricas df = Ok m ->
     tem "funcionario" df = true -> tem "producao" df = true ->
     Pandas.getitem df "producao" = Ok (valores df "producao") /\
     Pandas.getitem df "funcionario" = Ok (valores df "funcionario") /\
     Dict.get "Produtividade Média" m =
       Some (n_div (soma_de df "producao")
                   (n_of_nat (Pandas.nunique (valores df "funcionario")))) /\
     (Pandas.nunique (valores df "funcionario") <> 0%nat ->
      Dict.get "Produtividade Média" m =
        Some (Fin (Pandas.total (Pandas.numeros (valores df "producao"))
                   / inject_Z (Z.of_nat (Pandas.nunique (valores df "funcionario"))))))) /\
  (exists v, calcular_metricas Exemplos.tabela_produtividade
               = Ok [("Produtividade Média", Fin v)] /\ (v == 30)%Q).
Proof.
  split; [apply calcular_metricas_regular|]. split.
  - intros df m Hm Hf Hp.
    destruct (produtividade_rotulos df m Hm Hf Hp) as [Hcp Hcf].
    apply calcular_metricas_resumo in Hm as ->.
    assert (Hget : Dict.get "Produtividade Média" (resumo df) =
              Some (n_div (soma_de df "producao")
                          (n_of_nat (Pandas.nunique (valores df "funcionario"))))).
    { casos_resumo df; reflexivity. }
    split; [by apply getitem_valores|]. split; [by apply getitem_valores|].
    split; [exact Hget|].
    intros Hn. rewrite Hget. f_equal. unfold soma_de, n_of_nat.
    apply n_div_Fin. intros E. apply Qeq_bool_iff in E.
    by rewrite n_of_nat_nonzero in E.
  - eexists. split; [vm_compute; reflexivity|]. reflexivity.
Qed.

Lemma produtividade_media_regra_witness :
  exists m, calcular_metricas Exemplos.tabela_produtividade = Ok m /\
    Dict.get "Produtividade Média" m = Some (Fin (60 # 2)).
Proof.
  destruct produtividade_media_regra as (Hex & Hall & _).
  destruct (Hex Exemplos.tabela_produtividade) as [m Hm]; [vm_compute; reflexivity|].
  exists m. split; [exact Hm|].
  destruct (Hall Exemplos.tabela_produtividade m Hm) as (_ & _ & _ & Hq).
  - vm_compute. reflexivity.
  - vm_compute. reflexivity.
  - rewrite Hq.
    + vm_compute. reflexivity.
    + vm_compute. discriminate.
Defined.

(* ================================================================== *)
(** ** More on the exporters and on [main] *)

Lemma gerar_graficos_com_data_mundo amb df saida w t :
  objetos w !! df = Some t ->
  Str.contem "data" (columns t) = true ->
  gerar_graficos amb df saida w =
  (Ok tt,
   {| stdout := stdout w ++ ["[INFO] Gráficos interativos gerados com sucesso."];
      objetos := <[fresh (dom (<[df := tabela_coagida amb t]> (objetos w)))
                    := copia_dos_graficos amb t]>
                   (<[df := tabela_coagida amb t]> (objetos w));
      pastas := pastas w;
      disco := graficos_de amb saida t (disco w) |}).
Proof.
  intros Ht Hd.
  assert (Hd' : Str.contem "data" (columns (Pandas.dropna (tabela_coagida amb t) "data")) = true).
  { unfold Pandas.dropna, tabela_coagida. cbn [columns].
    by rewrite setitem_columns_presente. }
  unfold gerar_graficos.
  unfold Efeito.bind at 1. unfold Efeito.le at 1. rewrite Ht, Hd.
  unfold Efeito.bind at 1. unfold Efeito.lift at 1. rewrite (getitem_valores _ _ Hd).
  unfold Efeito.bind at 1. unfold Efeito.escreve at 1.
  unfold Efeito.bind at 1. unfold Efeito.le at 1. cbn [objetos].
  fold (tabela_coagida amb t). rewrite lookup_insert_eq.
  unfold Efeito.bind at 1. unfold Efeito.aloca at 1. cbn [objetos].
  unfold Efeito.bind at 1. unfold Efeito.le at 1. cbn [objetos].
  rewrite lookup_insert_eq.
  unfold Efeito.bind at 1. unfold Efeito.lift at 1. rewrite (getitem_valores _ _ Hd').
  unfold Efeito.bind at 1. unfold Efeito.escreve at 1.
  unfold Efeito.bind at 1. unfold Efeito.le at 1. cbn [objetos].
  rewrite lookup_insert_eq. fold (copia_dos_graficos amb t).
  rewrite insert_insert_eq.
  unfold graficos_de, Efeito.bind, Efeito.grava, Efeito.ret, Efeito.print. cbv zeta.
  by destruct (Str.contem "receita" _), (Str.contem "despesa" _).
Qed.

Lemma copia_dos_graficos_columns amb t c :
  c <> "mês" -> Str.contem "data" (columns t) = true ->
  Str.contem c (columns (copia_dos_graficos amb t)) = Str.contem c (columns t).
Proof.
  intros Hc Hd. unfold copia_dos_graficos, Pandas.setitem, Pandas.dropna.
  cbn [columns]. unfold tabela_coagida. rewrite setitem_columns_presente by done.
  destruct (Str.contem "mês" (columns t)); [done|].
  rewrite contem_app. simpl. apply String.eqb_neq in Hc. rewrite Hc.
  by rewrite !orb_false_r.
Qed.

(** X14.  What [gerar_graficos] leaves behind.  On a table without a column
    labelled [data] (the test is on the label as it stands) it does nothing:
    nothing printed, nothing written, the table untouched.  With that column
    it prints one line and writes [grafico_receita.html] exactly when the
    table has the label [receita] itself and [grafico_despesa.html] exactly
    when it has the label [despesa] itself, both drawn from the copy and not
    from the caller's table; no other file is touched. *)
Theorem gerar_graficos_efeito (amb : Ambiente) (df : nat) (saida : string)
    (w : Mundo) (t : DataFrame) :
  objetos w !! df = Some t ->
  (Str.contem "data" (columns t) = false ->
     gerar_graficos amb df saida w = (Ok tt, w)) /\
  (Str.contem "data" (columns t) = true ->
     exists w', gerar_graficos amb df saida w = (Ok tt, w') /\
       stdout w' = stdout w ++ ["[INFO] Gráficos interativos gerados com sucesso."] /\
       pastas w' = pastas w /\
       disco w' =
         (let d1 := if Str.contem "receita" (columns t)
                    then <[Str.path_join saida "grafico_receita.html" :=
                             GraficoLinha (copia_dos_graficos amb t) "mês" "receita"
                               "Evolução da Receita Mensal"]> (disco w)
                    else disco w in
          if Str.contem "despesa" (columns t)
          then <[Str.path_join saida "grafico_despesa.html" :=
                   GraficoBarra (copia_dos_graficos amb t) "mês" "despesa"
                     "Custos Operacionais por Mês"]> d1
          else d1)).
Proof.
  intros Ht. split.
  - intros Hd. by apply (gerar_graficos_sem_data amb df saida w t).
  - intros Hd. eexists. split; [by apply gerar_graficos_com_data_mundo|].
    cbn [stdout pastas disco]. split; [done|]. split; [done|].
    unfold graficos_de. cbv zeta.
    by rewrite !copia_dos_graficos_columns.
Qed.

Lemma gerar_graficos_efeito_witness :
  gerar_graficos Exemplos.ambiente 0 "saida" (Casos.mundo_com Exemplos.tabela_financeira)
    = (Ok tt, Casos.mundo_com Exemplos.tabela_financeira) /\
  exists w', gerar_graficos Exemplos.ambiente 0 "saida" (Casos.mundo_com Exemplos.tabela_datas)
               = (Ok tt, w') /\
    stdout w' = ["[INFO] Gráficos interativos gerados com sucesso."] /\
    dom (disco w') = {["saida/grafico_receita.html"]}.
Proof.
  split.
  - apply (proj1 (gerar_graficos_efeito Exemplos.ambiente 0 "saida"
                    (Casos.mundo_com Exemplos.tabela_financeira)
                    Exemplos.tabela_financeira eq_refl)).
    reflexivity.
  - destruct (proj2 (gerar_graficos_efeito Exemplos.ambiente 0 "saida"
                       (Casos.mundo_com Exemplos.tabela_datas)
                       Exemplos.tabela_datas eq_refl) eq_refl)
      as (w' & Hg & Hs & _ & Hd).
    exists w'. split; [exact Hg|]. split; [exact Hs|].
    rewrite Hd. vm_compute. reflexivity.
Defined.

Lemma coagida_data amb t (r : gmap string valor) :
  r ∈ linhas (tabela_coagida amb t) ->
  r !! "data" = None \/ exists z, r !! "data" = Some (Instante z).
Proof.
  intros Hr. apply list_elem_of_lookup in Hr as [i Hi].
  unfold tabela_coagida, Pandas.setitem in Hi. cbn [linhas] in Hi.
  rewrite atribuir_lookup in Hi.
  destruct (linhas t !! i) as [r0|]; [|done]. injection Hi as <-.
  unfold coagir. rewrite list_lookup_fmap.
  destruct (to_datetime amb (valores t "data") !! i) as [[z|]|]; simpl.
  - right. exists z. apply lookup_insert_eq.
  - left. apply lookup_delete_eq.
  - left. apply lookup_delete_eq.
Qed.

(** X15.  The table the charts are drawn from has no null date: each of its
    rows holds a timestamp under [data] and, under [mês], the month of that
    very timestamp; it has as many rows as the coerced table has rows with a
    date. *)
Theorem copia_dos_graficos_linhas (amb : Ambiente) (t : DataFrame) :
  (forall r, r ∈ linhas (copia_dos_graficos amb t) ->
     exists z, r !! "data" = Some (Instante z) /\
               r !! "mês" = Some (Texto (to_period_M amb z))) /\
  length (linhas (copia_dos_graficos amb t))
    = length (filter (fun r : gmap string valor => is_Some (r !! "data"))
                (linhas (tabela_coagida amb t))).
Proof.
  unfold copia_dos_graficos, Pandas.setitem. cbn [linhas]. split.
  - intros r Hr. apply list_elem_of_lookup in Hr as [i Hi].
    rewrite atribuir_lookup in Hi. unfold valores in Hi.
    unfold Pandas.dropna in Hi. cbn [linhas] in Hi.
    rewrite !list_lookup_fmap in Hi.
    destruct (filter _ (linhas (tabela_coagida amb t)) !! i) as [r0|] eqn:E; [|done].
    apply list_elem_of_lookup_2, list_elem_of_filter in E as [Hsome Hin].
    destruct (coagida_data amb t r0 Hin) as [Hn | [z Hz]].
    { rewrite Hn in Hsome. by destruct Hsome. }
    simpl in Hi. rewrite Hz in Hi. simpl in Hi. injection Hi as <-.
    exists z. split; [by rewrite lookup_insert_ne | apply lookup_insert_eq].
  - rewrite atribuir_length. reflexivity.
Qed.

Lemma copia_dos_graficos_linhas_witness :
  linhas (copia_dos_graficos Exemplos.ambiente Exemplos.tabela_datas)
  = [ linha_de [("data", Instante 1705276800); ("receita", Num 10);
                ("mês", Texto "2024-01")] ] /\
  length (linhas (copia_dos_graficos Exemplos.ambiente Exemplos.tabela_datas)) = 1%nat.
Proof.
  split; [vm_compute; reflexivity|].
  rewrite (proj2 (copia_dos_graficos_linhas Exemplos.ambiente Exemplos.tabela_datas)).
  vm_compute. reflexivity.
Defined.

Lemma linhas_pdf_lookup (m : list (string * numero)) (y : Z) (i : nat) :
  linhas_pdf m y !! i =
  (fun kv : string * numero => DrawMetrica 100 (y - 20 * Z.of_nat i) kv.1 kv.2) <$> (m !! i).
Proof.
  revert y i. induction m as [|[k v] m IH]; intros y i; [done|].
  destruct i as [|i]; simpl.
  - do 2 f_equal. lia.
  - rewrite IH. destruct (m !! i); [|done]. simpl. do 2 f_equal. lia.
Qed.

(** X16.  The page of the PDF: the title at (200, 800), then one line per
    metric in the order of the mapping, line [i] at x = 100 and
    y = 760 - 20 i.  For a mapping [calcular_metricas] returned there are at
    most five lines and none is drawn below y = 680. *)
Theorem exportar_pdf_pagina :
  (forall (m : list (string * numero)) (saida : string) (w : Mundo),
     exists w', exportar_pdf m saida w = (Ok tt, w') /\
       disco w' = <[caminho_pdf saida := pagina_pdf m]> (disco w) /\
       objetos w' = objetos w /\
       stdout w' = stdout w ++ ["[INFO] Relatório PDF salvo em: " +:+ caminho_pdf saida]) /\
  (forall (m : list (string * numero)) (i : nat),
     length (linhas_pdf m 760) = length m /\
     linhas_pdf m 760 !! i =
       (fun kv : string * numero =>
          DrawMetrica 100 (760 - 20 * Z.of_nat i) kv.1 kv.2) <$> (m !! i)) /\
  (forall (df : DataFrame) (m : list (string * numero)),
     calcular_metricas df = Ok m ->
     (length m <= 5)%nat /\
     forall x y k v, DrawMetrica x y k v ∈ linhas_pdf m 760 -> x = 100 /\ 680 <= y <= 760).
Proof.
  split; [|split].
  - intros m saida w. eexists. split; [reflexivity|]. by cbn.
  - intros m i. split; [|apply linhas_pdf_lookup].
    generalize 760. induction m as [|[k v] m IH]; intros y; simpl; [done|].
    by rewrite IH.
  - intros df m Hm.
    assert (Hlen : (length m <= 5)%nat).
    { apply calcular_metricas_resumo in Hm as ->.
      change 5%nat with (length indicadores).
      rewrite <- (length_fmap fst (resumo df)). fold (Dict.keys (resumo df)).
      rewrite keys_resumo. apply sublist_length, sublist_filter_fst. }
    split; [done|]. intros x y k v Hin.
    apply list_elem_of_lookup in Hin as [i Hi]. rewrite linhas_pdf_lookup in Hi.
    destruct (m !! i) as [kv|] eqn:E; [|done]. injection Hi as <- <- _ _.
    apply lookup_lt_Some in E. split; [done | lia].
Qed.

Lemma exportar_pdf_pagina_witness :
  (length [("Receita Total", Fin 300); ("Custo Operacional Total", Fin 40);
           ("Lucro Líquido", Fin 260)] <= 5)%nat /\
  linhas_pdf [("Receita Total", Fin 300); ("Custo Operacional Total", Fin 40)] 760
  = [DrawMetrica 100 760 "Receita Total" (Fin 300);
     DrawMetrica 100 740 "Custo Operacional Total" (Fin 40)].
Proof.
  split; [|reflexivity].
  apply (proj2 (proj2 exportar_pdf_pagina) Exemplos.tabela_financeira).
  vm_compute. reflexivity.
Defined.

Lemma main_fluxo amb input output w :
  main amb input output w =
  match fluxo amb input output
          {| stdout := stdout w; objetos := objetos w;
             pastas := {[output]} ∪ pastas w; disco := disco w |} with
  | (Ok _, w') => (Ok 0, w')
  | (Raise e, w') => (Ok 1, anota w' ["[ERRO] " +:+ mensagem e])
  end.
Proof.
  unfold main, Efeito.bind, Efeito.makedirs, Efeito.tenta, Efeito.ret, Efeito.print.
  by destruct (fluxo _ _ _ _) as [[[]|e] w'].
Qed.

(** X17.  When the load fails, [main] ends with status 1 and writes no file:
    the output folder has been created, standard output holds the progress
    line, the warnings of the load and last the [[ERRO]] line with the
    message of the exception; the disk and the objects are as before. *)
Theorem main_falha_na_carga (amb : Ambiente) (input output : string) (w : Mundo)
    (e : excecao) :
  (carregar_dados amb input w).1 = Raise e ->
  exists w' ls,
    main amb input output w = (Ok 1, w') /\
    disco w' = disco w /\ objetos w' = objetos w /\
    pastas w' = {[output]} ∪ pastas w /\
    stdout (carregar_dados amb input w).2 = stdout w ++ ls /\
    stdout w' = stdout w ++ ["[INFO] Carregando dados..."] ++ ls
                  ++ ["[ERRO] " +:+ mensagem e].
Proof.
  intros Hc. destruct (carregar_dados_mundo amb input w) as (ls & Hind).
  rewrite main_fluxo. unfold fluxo.
  unfold Efeito.bind at 1. rewrite print_anota.
  unfold Efeito.bind at 1. rewrite Hind, Hc.
  eexists _, ls. split; [reflexivity|].
  cbn [stdout objetos pastas disco anota].
  repeat (split; [done|]). split.
  - by rewrite (Hind w).
  - by rewrite <- !app_assoc.
Qed.

Lemma main_falha_na_carga_witness :
  exists w', main Exemplos.ambiente "vazio" "saida" Exemplos.mundo0 = (Ok 1, w') /\
    disco w' = ∅ /\
    stdout w' = ["[INFO] Carregando dados...";
                 "[ERRO] Nenhum arquivo CSV ou Excel encontrado no diretório informado."].
Proof.
  destruct (main_falha_na_carga Exemplos.ambiente "vazio" "saida" Exemplos.mundo0
              NoInputFiles) as (w' & ls & Hm & Hd & _ & _ & Hls & Hs).
  - vm_compute. reflexivity.
  - exists w'. split; [exact Hm|]. split; [exact Hd|].
    rewrite Hs. vm_compute in Hls. subst ls. reflexivity.
Defined.

(** X18.  When the load succeeds and [calcular_metricas] ends in the
    [KeyError] of a column read under its lower-case label, [main] ends with
    status 1 and writes no file, no chart either, the metrics being computed
    before anything is exported; the last line printed is the [[ERRO]] line
    with the label between quotes, as [str] shows a [KeyError].  (For the
    labels of rule 5, rule 3 did not fire or divided by a nonzero number of
    employees.) *)
Theorem main_falha_nas_metricas (amb : Ambiente) (input output : string) (w : Mundo)
    (t : DataFrame) (k : string) :
  (carregar_dados amb input w).1 = Ok t ->
  calcular_metricas t = Raise (KeyError k) ->
  (k = "producao" \/ k = "funcionario" \/
   tem "funcionario" t && tem "producao" t = false \/
   Pandas.nunique (valores t "funcionario") <> 0%nat) ->
  exists w' ls,
    main amb input output w = (Ok 1, w') /\
    disco w' = disco w /\
    pastas w' = {[output]} ∪ pastas w /\
    stdout (carregar_dados amb input w).2 = stdout w ++ ls /\
    stdout w' = stdout w ++ ["[INFO] Carregando dados..."] ++ ls
                  ++ ["[INFO] Calculando métricas..."; "[ERRO] '" +:+ k +:+ "'"].
Proof.
  intros Hc Hm _. destruct (carregar_dados_mundo amb input w) as (ls & Hind).
  rewrite main_fluxo. unfold fluxo.
  unfold Efeito.bind at 1. rewrite print_anota.
  unfold Efeito.bind at 1. rewrite Hind, Hc.
  unfold Efeito.bind at 1. unfold Efeito.aloca at 1.
  unfold Efeito.bind at 1. rewrite print_anota.
  unfold Efeito.bind at 1. unfold Efeito.le at 1. cbn [objetos anota].
  rewrite lookup_insert_eq.
  unfold Efeito.bind at 1. unfold Efeito.lift at 1. rewrite Hm.
  eexists _, ls. split; [reflexivity|].
  cbn [stdout objetos pastas disco anota].
  repeat (split; [done|]). split.
  - by rewrite (Hind w).
  - by rewrite <- !app_assoc.
Qed.

Lemma main_falha_nas_metricas_witness :
  exists w', main Casos.ambiente "planilhas" "saida" Exemplos.mundo0 = (Ok 1, w') /\
    disco w' = ∅ /\
    stdout w' = ["[INFO] Carregando dados..."; "[INFO] Calculando métricas...";
                 "[ERRO] 'producao'"].
Proof.
  destruct (main_falha_nas_metricas Casos.ambiente "planilhas" "saida" Exemplos.mundo0
              (Pandas.setitem_escalar Exemplos.tabela_maiusculas "Origem_Arquivo"
                 (Texto "equipe.csv"))
              "producao") as (w' & ls & Hm & Hd & _ & Hls & Hs).
  - vm_compute. reflexivity.
  - vm_compute. reflexivity.
  - left. reflexivity.
  - exists w'. split; [exact Hm|]. split; [exact Hd|].
    rewrite Hs. vm_compute in Hls. subst ls. reflexivity.
Defined.



Lemma endswith_sufixo (s suf : string) :
  Str.endswith s suf = true <-> exists p, s = p +:+ suf.
Proof.
  split.
  - induction s as [|c r IH].
    + change (Str.endswith "" suf) with (String.eqb "" suf || false).
      rewrite orb_false_r. intros ->%String.eqb_eq. by exists "".
    + change (Str.endswith (String c r) suf)
        with (String.eqb (String c r) suf || Str.endswith r suf).
      intros [->%String.eqb_eq | Hr]%orb_prop.
      * by exists "".
      * destruct (IH Hr) as [p ->]. by exists (String c p).
  - intros [p ->]. induction p as [|c p IH].
    + change ("" +:+ suf) with suf.
      destruct suf as [|a suf].
      * reflexivity.
      * change (Str.endswith (String a suf) (String a suf))
          with (String.eqb (String a suf) (String a suf) || Str.endswith suf (String a suf)).
        by rewrite String.eqb_refl.
    + change (Str.endswith (String c p +:+ suf) suf)
        with (String.eqb (String c (p +:+ suf)) suf || Str.endswith (p +:+ suf) suf).
      rewrite IH. apply orb_true_r.
Qed.

(** X20.  The files the loader looks at are the names of the listing that
    end in [.csv] or in [.xlsx], as written (upper-case extensions are not
    taken), each once per occurrence and in listing order. *)
Theorem elegiveis_sufixo (nomes : list string) :
  (forall f, f ∈ elegiveis nomes <->
     f ∈ nomes /\ exists p, f = p +:+ ".csv" \/ f = p +:+ ".xlsx") /\
  sublist (elegiveis nomes) nomes /\
  elegiveis ["dados.CSV"; "dados.csv.bak"; "a.xlsx"; ".csv"] = ["a.xlsx"; ".csv"].
Proof.
  split; [|split].
  - intros f. unfold elegiveis. rewrite list_elem_of_filter.
    unfold extensao_reconhecida. split.
    + intros [[H|H]%orb_prop Hin]; (split; [done|]);
        apply endswith_sufixo in H as [p ->]; exists p; auto.
    + intros [Hin (p & [-> | ->])]; (split; [|done]); apply orb_true_intro;
        [left | right]; apply endswith_sufixo; by exists p.
  - apply sublist_filter.
  - vm_compute. reflexivity.
Qed.

Lemma elegiveis_sufixo_witness :
  "b.csv" ∈ elegiveis ["a.txt"; "b.csv"].
Proof.
  apply (proj1 (elegiveis_sufixo ["a.txt"; "b.csv"])).
  split; [by right; left | exists "b"; by left].
Defined.

